(** * gcs-cache: the tar wrapper's compression negotiation and command
      construction

    A shallow embedding of the tar wrapper of the cache action
    ([getTarCompressionMethod], [possibleWithZstd], [possibleWithLz4],
    [createTar], [extractTar], [buildCompressionArgs],
    [buildDecompressionArgs]) together with the parts of the JavaScript
    runtime and of the two libraries it calls ([@actions/exec] and
    [semver]) that decide its behaviour.

    Text is modelled as [string] over 8-bit characters: ASCII text as it
    is, any other character as the bytes of its UTF-8 encoding. Splitting,
    searching and the version patterns are exact on such text; [trim] and the
    case mappings know the ASCII white space and letters only, so they are
    exact on ASCII text, and the statements that depend on what they do to
    other characters say that the text is ASCII. *)

From Stdlib Require Import ZArith NArith List String Ascii Bool Lia.
From Stdlib Require Import Numbers.DecimalString.
Import ListNotations.
Local Open Scope string_scope.
Local Open Scope bool_scope.

(** ** JavaScript string primitives used by the wrapper *)
Module Js.

(** White space removed by [String.prototype.trim], ASCII part: TAB, LF,
    VT, FF, CR and SPACE. *)
Definition is_space (c : ascii) : bool :=
  let n := N_of_ascii c in
  ((9 <=? n) && (n <=? 13))%N || (n =? 32)%N.

Definition is_upper (c : ascii) : bool :=
  let n := N_of_ascii c in ((65 <=? n) && (n <=? 90))%N.

Definition lower_char (c : ascii) : ascii :=
  if is_upper c then ascii_of_N (N_of_ascii c + 32) else c.

(** [s.toLowerCase()], on ASCII letters. *)
Fixpoint toLowerCase (s : string) : string :=
  match s with
  | EmptyString => EmptyString
  | String c r => String (lower_char c) (toLowerCase r)
  end.

Definition is_empty (s : string) : bool :=
  match s with EmptyString => true | String _ _ => false end.

Fixpoint trimStart (s : string) : string :=
  match s with
  | EmptyString => EmptyString
  | String c r => if is_space c then trimStart r else s
  end.

Fixpoint trimEnd (s : string) : string :=
  match s with
  | EmptyString => EmptyString
  | String c r =>
      let r' := trimEnd r in
      if is_space c && is_empty r' then EmptyString else String c r'
  end.

(** [s.trim()], for ASCII white space: white space outside ASCII (U+00A0,
    U+FEFF, U+2028 and the like) is left in place. *)
Definition trim (s : string) : string := trimStart (trimEnd s).

(** [hay.includes(needle)] *)
Fixpoint includes (needle hay : string) : bool :=
  String.prefix needle hay ||
  match hay with
  | EmptyString => false
  | String _ r => includes needle r
  end.

(** Truthiness of a value that is a string or [null]: [!v] is [negb (truthy v)]. *)
Definition truthy (v : option string) : bool :=
  match v with
  | None => false
  | Some s => negb (is_empty s)
  end.

(** [a === b] where [a] may be [undefined] and [b] is a string. *)
Definition strict_eq (a : option string) (b : string) : bool :=
  match a with
  | None => false
  | Some s => String.eqb s b
  end.

End Js.

(** ** The two version patterns

    [/v(\d+(?:\.\d+){0,})/] (zstd) and [/(\d+(?:\.\d+){0,})/] (lz4), applied
    with [RegExp.prototype.exec]: leftmost match, greedy quantifiers, the
    result being capture group 1. *)
Module Regex.

(** [\d] *)
Definition is_digit (c : ascii) : bool :=
  let n := N_of_ascii c in ((48 <=? n) && (n <=? 57))%N.

Definition is_dot (c : ascii) : bool := (N_of_ascii c =? 46)%N.

(** What [\d*(?:\.\d+)*] consumes greedily, once a first digit has been read:
    more digits, or a dot when a digit follows it. *)
Fixpoint version_rest (s : string) : string :=
  match s with
  | EmptyString => EmptyString
  | String c r =>
      if is_digit c then String c (version_rest r)
      else if is_dot c then
        match r with
        | String d _ => if is_digit d then String c (version_rest r) else EmptyString
        | EmptyString => EmptyString
        end
      else EmptyString
  end.

(** [\d+(?:\.\d+){0,}] anchored at the head of [s]. *)
Definition version_at (s : string) : option string :=
  match s with
  | String d r => if is_digit d then Some (String d (version_rest r)) else None
  | EmptyString => None
  end.

(** [/v(\d+(?:\.\d+){0,})/.exec(s)], group 1 or [null]. *)
Fixpoint exec_v_version (s : string) : option string :=
  match s with
  | EmptyString => None
  | String c r =>
      match (if Ascii.eqb c "v" then version_at r else None) with
      | Some v => Some v
      | None => exec_v_version r
      end
  end.

(** [/(\d+(?:\.\d+){0,})/.exec(s)], group 1 or [null]. *)
Fixpoint exec_version (s : string) : option string :=
  match s with
  | EmptyString => None
  | String _ r =>
      match version_at s with
      | Some v => Some v
      | None => exec_version r
      end
  end.

End Regex.

(** ** Exceptions and results *)

(** The exceptions that can reach the wrapper: a [TypeError] (thrown by the
    runtime or by [semver]) and a plain [Error] (thrown by [@actions/exec]),
    each with its message. *)
Inductive exn : Type :=
| TypeError (message : string)
| Error (message : string).

Definition exn_message (e : exn) : string :=
  match e with TypeError m => m | Error m => m end.

Inductive result (A : Type) : Type :=
| Ok (a : A)
| Throw (e : exn).
Arguments Ok {A} a.
Arguments Throw {A} e.

(** ** [semver.lt], on the tokens the version pattern yields

    [semver.lt(a, b)] builds [new SemVer(a)] and [new SemVer(b)] (strict mode)
    and compares them. The constructor throws a [TypeError] when the string is
    longer than 256 characters, when it is not of the form
    [MAJOR.MINOR.PATCH] (numeric identifiers without leading zeros, an optional
    leading [v], optional prerelease and build suffixes), or when a component
    exceeds [Number.MAX_SAFE_INTEGER]. The strings compared here consist of
    digits and dots, so the [v] prefix and the suffixes are not modelled. *)
Module Semver.

Definition MAX_LENGTH : nat := 256.
Definition MAX_SAFE_INTEGER : Z := 9007199254740991.

Record SemVer : Type := { major : Z; minor : Z; patch : Z }.

(** Splits at every dot. *)
Fixpoint split_dots (s : string) : list string :=
  match s with
  | EmptyString => [EmptyString]
  | String c r =>
      if Regex.is_dot c then EmptyString :: split_dots r
      else match split_dots r with
           | p :: ps => String c p :: ps
           | [] => [String c EmptyString]
           end
  end.

Fixpoint all_digits (s : string) : bool :=
  match s with
  | EmptyString => true
  | String c r => Regex.is_digit c && all_digits r
  end.

(** [0|[1-9]\d*] *)
Definition numeric_identifier (s : string) : bool :=
  match s with
  | EmptyString => false
  | String c r =>
      if Ascii.eqb c "0" then Js.is_empty r
      else Regex.is_digit c && all_digits r
  end.

Definition digit_value (c : ascii) : Z := Z.of_N (N_of_ascii c) - 48.

Fixpoint number_from (acc : Z) (s : string) : Z :=
  match s with
  | EmptyString => acc
  | String c r => number_from (10 * acc + digit_value c) r
  end.

(** [+m[i]] for a string of digits. *)
Definition to_number (s : string) : Z := number_from 0 s.

(** [new SemVer(version)] *)
Definition parse (version : string) : result SemVer :=
  if (MAX_LENGTH <? String.length version)%nat then
    Throw (TypeError "version is longer than 256 characters")
  else
    match split_dots version with
    | [a; b; c] =>
        if numeric_identifier a && numeric_identifier b && numeric_identifier c then
          if (MAX_SAFE_INTEGER <? to_number a)%Z then Throw (TypeError "Invalid major version")
          else if (MAX_SAFE_INTEGER <? to_number b)%Z then Throw (TypeError "Invalid minor version")
          else if (MAX_SAFE_INTEGER <? to_number c)%Z then Throw (TypeError "Invalid patch version")
          else Ok {| major := to_number a; minor := to_number b; patch := to_number c |}
        else Throw (TypeError ("Invalid Version: " ++ version))
    | _ => Throw (TypeError ("Invalid Version: " ++ version))
    end.

(** [a.compare(b) < 0] for versions without prerelease. *)
Definition precedes (a b : SemVer) : bool :=
  ((major a <? major b) ||
   ((major a =? major b) &&
    ((minor a <? minor b) ||
     ((minor a =? minor b) && (patch a <? patch b)))))%Z.

(** [semver.lt(a, b)] *)
Definition lt (a b : string) : result bool :=
  match parse a with
  | Throw e => Throw e
  | Ok va =>
      match parse b with
      | Throw e => Throw e
      | Ok vb => Ok (precedes va vb)
      end
  end.

End Semver.

(** ** The host and its effects *)

(** What running a command on the host comes to: the tool cannot be located
    or started, or the process runs and exits. *)
Inductive Process : Type :=
| NotStarted (message : string)
| Exited (toolPath : string) (exitCode : Z) (stdout stderr : string).

Record Host : Type := {
  platform : string;                              (* process.platform *)
  run : string -> list string -> Process
}.

Record ExecOptions : Type := { ignoreReturnCode : bool; silent : bool }.

(** What the wrapper does to the outside world, in order. *)
Inductive Event : Type :=
| Spawn (commandLine : string) (args : list string) (options : ExecOptions)
| Log (message : string).

(** An asynchronous computation: it reads the host, appends to the events
    seen so far, and resolves with a value or rejects with an exception. *)
Definition M (A : Type) : Type := Host -> list Event -> list Event * result A.

Definition ret {A} (a : A) : M A := fun _ t => (t, Ok a).

Definition throw {A} (e : exn) : M A := fun _ t => (t, Throw e).

Definition bind {A B} (c : M A) (k : A -> M B) : M B :=
  fun h t =>
    match c h t with
    | (t', Ok a) => k a h t'
    | (t', Throw e) => (t', Throw e)
    end.

(** [c.catch(handler)] *)
Definition catch {A} (c : M A) (handler : exn -> M A) : M A :=
  fun h t =>
    match c h t with
    | (t', Ok a) => (t', Ok a)
    | (t', Throw e) => handler e h t'
    end.

Definition lift {A} (r : result A) : M A := fun _ t => (t, r).

Definition host : M Host := fun h t => (t, Ok h).

Definition emit (e : Event) : M unit := fun _ t => ((t ++ [e])%list, Ok tt).

Declare Scope async_scope.
Delimit Scope async_scope with async.
Notation "x <- c ;; k" := (bind c (fun x => k))
  (at level 61, c at next level, right associativity) : async_scope.
Notation "c ;;; k" := (bind c (fun _ => k))
  (at level 61, right associativity) : async_scope.
Local Open Scope async_scope.

(** ** [@actions/exec] *)
Module Exec.

Record ExecOutput : Type := { exitCode : Z; stdout : string; stderr : string }.

Definition default_options : ExecOptions :=
  {| ignoreReturnCode := false; silent := false |}.

Definition decimal (z : Z) : string := NilZero.string_of_int (Z.to_int z).

Definition exit_code_message (toolPath : string) (code : Z) : string :=
  "The process '" ++ toolPath ++ "' failed with exit code " ++ decimal code.

(** [exec.getExecOutput(commandLine, args, options)]: rejects when the tool
    cannot be started, and when it exits non-zero unless
    [ignoreReturnCode] is set; otherwise resolves with the exit code and the
    captured streams. *)
Definition getExecOutput (commandLine : string) (args : list string)
    (options : ExecOptions) : M ExecOutput :=
  emit (Spawn commandLine args options) ;;;
  h <- host ;;
  match run h commandLine args with
  | NotStarted message => throw (Error message)
  | Exited toolPath code out err =>
      if negb (code =? 0)%Z && negb (ignoreReturnCode options) then
        throw (Error (exit_code_message toolPath code))
      else ret {| exitCode := code; stdout := out; stderr := err |}
  end.

(** [exec.exec(commandLine, args)] with the default options: resolves with
    the exit code; the streams are not captured. *)
Definition exec (commandLine : string) (args : list string) : M Z :=
  out <- getExecOutput commandLine args default_options ;;
  ret (exitCode out).

End Exec.

(** ** The tar wrapper *)
Module Tar.

Definition ZSTD_WITHOUT_LONG_VERSION : string := "1.3.2".

Inductive CompressionMethod : Type := GZIP | ZSTD_WITHOUT_LONG | ZSTD | LZ4.

(** The string each member of the enum is at run time. *)
Definition value (m : CompressionMethod) : string :=
  match m with
  | GZIP => "gzip"
  | ZSTD_WITHOUT_LONG => "zstd (without long)"
  | ZSTD => "zstd"
  | LZ4 => "lz4"
  end.

(** The object [getState()] returns, as far as the wrapper reads it:
    [getState] belongs to the [./state] module, and its result is an
    argument of the functions that call it. [None] is [undefined]. *)
Record State : Type := { compressionMethod : option string }.

Definition probe_options : ExecOptions :=
  {| ignoreReturnCode := true; silent := true |}.

Definition ZSTD_SIGNATURE : string := "zstd command line interface".
Definition LZ4_SIGNATURE : string := "lz4 command line interface".

(** The first statement of [possibleWithZstd]: the trimmed standard output
    and the version token, or [['', null]] when the command rejects. *)
Definition zstd_probe : M (string * option string) :=
  catch
    (out <- Exec.getExecOutput "zstd" ["--version"] probe_options ;;
     let out := Js.trim (Exec.stdout out) in
     ret (out, Regex.exec_v_version out))
    (fun _ => ret ("", None)).

Definition possibleWithZstd : M (option CompressionMethod) :=
  p <- zstd_probe ;;
  let '(zstdOutput, zstdVersion) := p in
  if negb (Js.includes ZSTD_SIGNATURE (Js.toLowerCase zstdOutput)) then ret None
  else
    older <- match zstdVersion with
             | Some v =>
                 if negb (Js.truthy zstdVersion) then ret true
                 else lift (Semver.lt v ZSTD_WITHOUT_LONG_VERSION)
             | None => ret true
             end ;;
    if (older : bool) then ret (Some ZSTD_WITHOUT_LONG) else ret (Some ZSTD).

Definition lz4_probe : M (string * option string) :=
  catch
    (out <- Exec.getExecOutput "lz4" ["--version"] probe_options ;;
     let out := Js.trim (Exec.stdout out) in
     ret (out, Regex.exec_version out))
    (fun _ => ret ("", None)).

Definition possibleWithLz4 : M (option CompressionMethod) :=
  p <- lz4_probe ;;
  let '(lz4Output, _lz4Version) := p in
  if negb (Js.includes LZ4_SIGNATURE (Js.toLowerCase lz4Output)) then ret None
  else ret (Some LZ4).

Definition getTarCompressionMethod (state : State) : M CompressionMethod :=
  h <- host ;;
  if String.eqb (platform h) "win32" then ret GZIP
  else if Js.strict_eq (compressionMethod state) (value GZIP) then ret GZIP
  else
    lz4 <- possibleWithLz4 ;;
    let check_zstd : M CompressionMethod :=
      zstd <- possibleWithZstd ;;
      match zstd with
      | Some m => ret m
      | None => ret GZIP
      end in
    match lz4 with
    | Some m =>
        if Js.strict_eq (compressionMethod state) (value LZ4) then ret m
        else check_zstd
    | None => check_zstd
    end.

(** The [switch] has no [default]: for any other value the function runs
    off its end and yields [undefined], here [None]. *)
Definition buildCompressionArgs (method : string) : option (list string) :=
  if String.eqb method (value GZIP) then Some ["-z"]
  else if String.eqb method (value ZSTD_WITHOUT_LONG) then
    Some ["--use-compress-program"; "zstd -T0"]
  else if String.eqb method (value ZSTD) then
    Some ["--use-compress-program"; "zstd -T0 --long=30"]
  else if String.eqb method (value LZ4) then
    Some ["--use-compress-program"; "lz4 --fast -BD"]
  else None.

Definition buildDecompressionArgs (method : string) : option (list string) :=
  if String.eqb method (value GZIP) then Some ["-z"]
  else if String.eqb method (value ZSTD_WITHOUT_LONG) then
    Some ["--use-compress-program"; "zstd -d"]
  else if String.eqb method (value ZSTD) then
    Some ["--use-compress-program"; "zstd -d --long=30"]
  else if String.eqb method (value LZ4) then
    Some ["--use-compress-program"; "lz4 -d"]
  else None.

(** [...compressionArgs] inside an array literal: spreading [undefined]
    throws a [TypeError] (the message is the one V8 gives), before the
    call the array is an argument of is made. *)
Definition spread (name : string) (v : option (list string)) : M (list string) :=
  match v with
  | Some l => ret l
  | None => throw (TypeError (name ++ " is not iterable"))
  end.

(** The glyph U+1F539 that opens both logged lines, in UTF-8, and the
    space after it. *)
Definition BULLET : string :=
  String "240" (String "159" (String "148" (String "185" " "))).

(** The lines handed to [console.log]. *)
Definition using_message (method : string) : string :=
  BULLET ++ "Using '" ++ method ++ "' compression method.".

Definition detected_message (method : string) : string :=
  BULLET ++ "Detected '" ++ method ++ "' compression method from object metadata.".

Definition createTar (state : State) (archivePath : string)
    (paths : list string) (cwd : string) : M CompressionMethod :=
  compressionMethod <- getTarCompressionMethod state ;;
  emit (Log (using_message (value compressionMethod))) ;;;
  compressionArgs <- spread "compressionArgs"
                       (buildCompressionArgs (value compressionMethod)) ;;
  _ <- Exec.exec "tar"
         ("-c" :: compressionArgs
            ++ ["--posix"; "-P"; "-f"; archivePath; "-C"; cwd] ++ paths)%list ;;
  ret compressionMethod.

(** [compressionMethod] is whatever string the object metadata held. *)
Definition extractTar (archivePath : string) (compressionMethod : string)
    (cwd : string) : M unit :=
  emit (Log (detected_message compressionMethod)) ;;;
  compressionArgs <- spread "compressionArgs"
                       (buildDecompressionArgs compressionMethod) ;;
  _ <- Exec.exec "tar"
         ("-x" :: compressionArgs ++ ["-P"; "-f"; archivePath; "-C"; cwd])%list ;;
  ret tt.

End Tar.

(** ** Sample hosts *)
Module Samples.

Definition ZSTD_148 : string :=
  "*** zstd command line interface 64-bits v1.4.8, by Yann Collet ***".
Definition ZSTD_131 : string :=
  "*** zstd command line interface 64-bits v1.3.1, by Yann Collet ***".
Definition LZ4_192 : string :=
  "*** LZ4 command line interface 64-bits v1.9.2, by Yann Collet ***".

(** A host on which [zstd --version] and [lz4 --version] behave as given,
    and [tar] exits with [tar_code], writing [tar_err] to standard error. *)
Definition host_with (os : string) (lz4 zstd : Process) (tar_code : Z)
    (tar_err : string) : Host :=
  {| platform := os;
     run := fun cmd _ =>
       if String.eqb cmd "lz4" then lz4
       else if String.eqb cmd "zstd" then zstd
       else if String.eqb cmd "tar" then Exited "/usr/bin/tar" tar_code "" tar_err
       else NotStarted ("Unable to locate executable file: " ++ cmd) |}.

Definition missing (cmd : string) : Process :=
  NotStarted ("Unable to locate executable file: " ++ cmd).

Definition prints (toolPath out : string) : Process :=
  Exited toolPath 0 (out ++ String "010" "") "".

Definition unset : Tar.State := {| Tar.compressionMethod := None |}.
Definition prefers (m : string) : Tar.State := {| Tar.compressionMethod := Some m |}.

End Samples.
(** ** Vocabulary of the statements *)
Module Terms.
Import Js Tar.

Definition starts_nonspace (s : string) : bool :=
  match s with
  | EmptyString => false
  | String c _ => negb (is_space c)
  end.

Fixpoint ends_nonspace (s : string) : bool :=
  match s with
  | EmptyString => false
  | String c EmptyString => negb (is_space c)
  | String _ r => ends_nonspace r
  end.

Definition lz4_spawn : Event := Spawn "lz4" ["--version"] probe_options.
Definition zstd_spawn : Event := Spawn "zstd" ["--version"] probe_options.

(** The text a probe examines: the trimmed standard output whatever the exit
    code, or the empty string when the command could not be started. *)
Definition probe_output (p : Process) : string :=
  match p with
  | NotStarted _ => EmptyString
  | Exited _ _ out _ => trim out
  end.

(** The tool's signature is missing from what the command printed, or the
    command did not start. *)
Definition unavailable (signature : string) (p : Process) : bool :=
  match p with
  | NotStarted _ => true
  | Exited _ _ out _ => negb (includes signature (toLowerCase out))
  end.

Definition zstd_verdict (out : string) : result (option CompressionMethod) :=
  if includes ZSTD_SIGNATURE (toLowerCase out) then
    match Regex.exec_v_version out with
    | None => Ok (Some ZSTD_WITHOUT_LONG)
    | Some v =>
        match Semver.lt v ZSTD_WITHOUT_LONG_VERSION with
        | Ok true => Ok (Some ZSTD_WITHOUT_LONG)
        | Ok false => Ok (Some ZSTD)
        | Throw e => Throw e
        end
    end
  else Ok None.

(** How [exec.exec] settles, from what the host answers. *)
Definition exec_outcome (p : Process) : result Z :=
  match p with
  | NotStarted message => Throw (Error message)
  | Exited toolPath code _ _ =>
      if (code =? 0)%Z then Ok code
      else Throw (Error (Exec.exit_code_message toolPath code))
  end.

(** The flag tables of the specification, sections 4.2 and 4.3, one row
    per method. *)
Definition creation_flags (m : CompressionMethod) : list string :=
  match m with
  | GZIP => ["-z"]
  | ZSTD_WITHOUT_LONG => ["--use-compress-program"; "zstd -T0"]
  | ZSTD => ["--use-compress-program"; "zstd -T0 --long=30"]
  | LZ4 => ["--use-compress-program"; "lz4 --fast -BD"]
  end.

Definition extraction_flags (m : CompressionMethod) : list string :=
  match m with
  | GZIP => ["-z"]
  | ZSTD_WITHOUT_LONG => ["--use-compress-program"; "zstd -d"]
  | ZSTD => ["--use-compress-program"; "zstd -d --long=30"]
  | LZ4 => ["--use-compress-program"; "lz4 -d"]
  end.

(** The exception says, in whatever case, that the compression method is
    unrecognized. *)
Definition names_unrecognized_method (e : exn) : bool :=
  includes "unrecognized compression method" (toLowerCase (exn_message e)).

(** A preference that is neither [gzip] nor [lz4]: unset, empty, [zstd],
    or any other text. *)
Definition indifferent (state : State) : Prop :=
  compressionMethod state <> Some (value GZIP) /\
  compressionMethod state <> Some (value LZ4).

End Terms.

(** ** [@actions/core] *)
Module Core.

(** [process.env]: the value of a variable, or [None] when it is not set. *)
Definition Env : Type := string -> option string.

Definition is_lower (c : ascii) : bool :=
  let n := N_of_ascii c in ((97 <=? n) && (n <=? 122))%N.

Definition upper_char (c : ascii) : ascii :=
  if is_lower c then ascii_of_N (N_of_ascii c - 32) else c.

(** [s.toUpperCase()] *)
Fixpoint toUpperCase (s : string) : string :=
  match s with
  | EmptyString => EmptyString
  | String c r => String (upper_char c) (toUpperCase r)
  end.

(** [s.replace(/ /g, '_')] *)
Fixpoint replace_spaces (s : string) : string :=
  match s with
  | EmptyString => EmptyString
  | String c r => String (if Ascii.eqb c " " then "_"%char else c) (replace_spaces r)
  end.

(** The environment variable that holds the input [name]. *)
Definition variable_of (name : string) : string :=
  "INPUT_" ++ toUpperCase (replace_spaces name).

(** [core.getInput(name, { required })]: the variable's value or [''],
    refused when required and empty, trimmed otherwise. *)
Definition getInput (env : Env) (name : string) (required : bool) : result string :=
  let val := match env (variable_of name) with Some v => v | None => EmptyString end in
  if required && Js.is_empty val then
    Throw (Error ("Input required and not supplied: " ++ name))
  else Ok (Js.trim val).

End Core.

(** ** [String.prototype.split], [Array.prototype.join], [JSON.stringify] *)
Module Text.

(** [s.split(sep)] for a separator of one character. *)
Fixpoint split (sep : ascii) (s : string) : list string :=
  match s with
  | EmptyString => [EmptyString]
  | String c r =>
      if Ascii.eqb c sep then EmptyString :: split sep r
      else match split sep r with
           | p :: ps => String c p :: ps
           | [] => [String c EmptyString]
           end
  end.

(** [l.join(sep)] *)
Fixpoint join (sep : string) (l : list string) : string :=
  match l with
  | [] => EmptyString
  | [x] => x
  | x :: rest => x ++ sep ++ join sep rest
  end.

Definition dquote : string := String "034" EmptyString.

Definition hex_digit (n : N) : ascii :=
  if (n <? 10)%N then ascii_of_N (48 + n) else ascii_of_N (87 + n).

(** How [JSON.stringify] writes one character of a string. *)
Definition quote_char (c : ascii) : string :=
  let n := N_of_ascii c in
  if (n =? 34)%N then String "\" dquote
  else if (n =? 92)%N then "\\"
  else if (n =? 8)%N then "\b"
  else if (n =? 9)%N then "\t"
  else if (n =? 10)%N then "\n"
  else if (n =? 12)%N then "\f"
  else if (n =? 13)%N then "\r"
  else if (n <? 32)%N then
    "\u00" ++ String (hex_digit (n / 16)) (String (hex_digit (n mod 16)) EmptyString)
  else String c EmptyString.

Fixpoint quote_chars (s : string) : string :=
  match s with
  | EmptyString => EmptyString
  | String c r => quote_char c ++ quote_chars r
  end.

(** [JSON.stringify(s)] for a string. *)
Definition stringify_string (s : string) : string := dquote ++ quote_chars s ++ dquote.

(** [JSON.stringify(l)] for an array of strings. *)
Definition stringify_array (l : list string) : string :=
  "[" ++ join "," (map stringify_string l) ++ "]".

(** One [key: value] member of an object. *)
Definition member (key value : string) : string :=
  stringify_string key ++ ":" ++ value.

End Text.

(** ** The action's inputs ([inputs.ts]) *)
Module Inputs.

Record Inputs : Type := {
  bucket : string;
  path : string;
  key : string;
  restoreKeys : list string;
  keyFileName : string;
  compressionMethod : string
}.

(** [JSON.stringify(inputs)], the members in the order the object literal
    lists them. *)
Definition stringify (i : Inputs) : string :=
  "{" ++ Text.join ","
           [Text.member "bucket" (Text.stringify_string (bucket i));
            Text.member "path" (Text.stringify_string (path i));
            Text.member "key" (Text.stringify_string (key i));
            Text.member "keyFileName" (Text.stringify_string (keyFileName i));
            Text.member "compressionMethod" (Text.stringify_string (compressionMethod i));
            Text.member "restoreKeys" (Text.stringify_array (restoreKeys i))]
      ++ "}".

(** [text.split(',').filter((path) => path)] *)
Definition parseRestoreKeys (text : string) : list string :=
  filter (fun path => negb (Js.is_empty path)) (Text.split "," text).

(** [getInputs()]: the messages handed to [core.debug], and the inputs or
    the exception of the first required input that is missing. *)
Definition getInputs (env : Core.Env) : list string * result Inputs :=
  match Core.getInput env "bucket" true with
  | Throw e => ([], Throw e)
  | Ok bucket =>
  match Core.getInput env "path" true with
  | Throw e => ([], Throw e)
  | Ok path =>
  match Core.getInput env "key" true with
  | Throw e => ([], Throw e)
  | Ok key =>
  match Core.getInput env "key-file-name" false with
  | Throw e => ([], Throw e)
  | Ok keyFileName =>
  match Core.getInput env "compression-method" false with
  | Throw e => ([], Throw e)
  | Ok compressionMethod =>
  match Core.getInput env "restore-keys" false with
  | Throw e => ([], Throw e)
  | Ok restore =>
      let inputs :=
        {| bucket := bucket; path := path; key := key;
           keyFileName := keyFileName; compressionMethod := compressionMethod;
           restoreKeys := parseRestoreKeys restore |} in
      (["Loaded inputs: " ++ stringify inputs ++ "."], Ok inputs)
  end end end end end end.

End Inputs.

(** An environment given by a list of variables and values. *)
Module SampleInputs.

Fixpoint lookup (vars : list (string * string)) (name : string) : option string :=
  match vars with
  | [] => None
  | (n, v) :: rest => if String.eqb n name then Some v else lookup rest name
  end.

Definition workflow : Core.Env :=
  lookup [("INPUT_BUCKET", " my-bucket ");
          ("INPUT_PATH", "node_modules");
          ("INPUT_KEY", "npm-abc");
          ("INPUT_RESTORE-KEYS", "npm-, ,,node-")].

End SampleInputs.

(** ** Further vocabulary: tokens, programs, raw inputs *)
Module Shapes.
Import Js.

(** A non-empty run of digits. *)
Definition digit_run (s : string) : bool :=
  negb (is_empty s) && Semver.all_digits s.

(** The first component is made of digits, the others are digit runs. *)
Definition loose_runs (w : string) : bool :=
  Semver.all_digits (hd EmptyString (Semver.split_dots w))
  && forallb digit_run (tl (Semver.split_dots w)).

(** The version [1.3.2] the zstd probe compares with. *)
Definition version_1_3_2 : Semver.SemVer :=
  {| Semver.major := 1; Semver.minor := 3; Semver.patch := 2 |}.

(** The text has no white space at either end. *)
Definition trimmed (s : string) : Prop := trim s = s.

Fixpoint no_comma (s : string) : bool :=
  match s with
  | EmptyString => true
  | String c r => negb (Ascii.eqb c ",") && no_comma r
  end.

(** A restore key as [getInputs] returns them: not empty, without comma. *)
Definition plain_key (s : string) : bool := negb (is_empty s) && no_comma s.

(** The value [core.getInput] starts from: the variable's, or the empty
    string. *)
Definition raw_input (env : Core.Env) (name : string) : string :=
  match env (Core.variable_of name) with Some v => v | None => EmptyString end.

(** The text is ASCII. *)
Fixpoint ascii_text (s : string) : bool :=
  match s with
  | EmptyString => true
  | String c r => (N_of_ascii c <? 128)%N && ascii_text r
  end.

(** The six inputs of the action hold ASCII text. *)
Definition ascii_inputs (env : Core.Env) : bool :=
  forallb (fun name => ascii_text (raw_input env name))
    ["bucket"; "path"; "key"; "key-file-name"; "compression-method"; "restore-keys"].

(** The first of the required inputs [bucket], [path], [key] whose variable
    is not set or is empty. *)
Definition first_missing (env : Core.Env) : option string :=
  if is_empty (raw_input env "bucket") then Some "bucket"
  else if is_empty (raw_input env "path") then Some "path"
  else if is_empty (raw_input env "key") then Some "key"
  else None.

(** The inputs [getInputs] builds when nothing required is missing. *)
Definition loaded (env : Core.Env) : Inputs.Inputs :=
  {| Inputs.bucket := trim (raw_input env "bucket");
     Inputs.path := trim (raw_input env "path");
     Inputs.key := trim (raw_input env "key");
     Inputs.keyFileName := trim (raw_input env "key-file-name");
     Inputs.compressionMethod := trim (raw_input env "compression-method");
     Inputs.restoreKeys :=
       Inputs.parseRestoreKeys (trim (raw_input env "restore-keys")) |}.

(** The argument that follows [--use-compress-program], if any. *)
Fixpoint compress_program (args : list string) : option string :=
  match args with
  | [] => None
  | a :: rest =>
      if String.eqb a "--use-compress-program" then
        match rest with p :: _ => Some p | [] => None end
      else compress_program rest
  end.

(** The first word of a command line. *)
Fixpoint first_word (s : string) : string :=
  match s with
  | EmptyString => EmptyString
  | String c r => if Ascii.eqb c " " then EmptyString else String c (first_word r)
  end.

(** The words of a command line. *)
Definition words (s : string) : list string := Text.split " " s.

End Shapes.

(** * Properties *)

(** ** The primitives on sample texts *)
Module Checks.
Import Samples.

Example version_token_of_zstd_banner :
  Regex.exec_v_version ZSTD_148 = Some "1.4.8".
Proof. reflexivity. Qed.

Example version_token_stops_at_a_dangling_dot :
  Regex.exec_v_version "zstd v1.3. (beta)" = Some "1.3".
Proof. reflexivity. Qed.

Example version_token_needs_a_lower_case_v :
  Regex.exec_v_version "zstd V1.4.8" = None.
Proof. reflexivity. Qed.

Example lz4_pattern_takes_the_first_digits :
  Regex.exec_version LZ4_192 = Some "4".
Proof. reflexivity. Qed.

Example trim_strips_both_ends :
  Js.trim (String "009" (" zstd v1 " ++ String "010" "")) = "zstd v1".
Proof. reflexivity. Qed.

Example signature_is_found_in_lower_case :
  Js.includes Tar.LZ4_SIGNATURE (Js.toLowerCase LZ4_192) = true.
Proof. reflexivity. Qed.

Example lt_below : Semver.lt "1.3.1" "1.3.2" = Ok true.
Proof. reflexivity. Qed.

Example lt_equal : Semver.lt "1.3.2" "1.3.2" = Ok false.
Proof. reflexivity. Qed.

Example lt_compares_numbers : Semver.lt "1.10.0" "1.3.2" = Ok false.
Proof. reflexivity. Qed.

Example lt_rejects_two_components :
  Semver.lt "1.4" "1.3.2" = Throw (TypeError "Invalid Version: 1.4").
Proof. reflexivity. Qed.

Example lt_rejects_four_components :
  Semver.lt "1.3.2.1" "1.3.2" = Throw (TypeError "Invalid Version: 1.3.2.1").
Proof. reflexivity. Qed.

Example lt_rejects_leading_zero :
  Semver.lt "1.04.0" "1.3.2" = Throw (TypeError "Invalid Version: 1.04.0").
Proof. reflexivity. Qed.

End Checks.

(** ** Strings: trimming does not change whether a signature is found *)
Module JsFacts.
Import Js Terms.

Lemma is_space_lower_char (c : ascii) : is_space (lower_char c) = is_space c.
Proof.
  destruct c as [[] [] [] [] [] [] [] []]; reflexivity.
Qed.

Lemma is_empty_toLowerCase (s : string) : is_empty (toLowerCase s) = is_empty s.
Proof. destruct s; reflexivity. Qed.

Lemma toLowerCase_trimStart (s : string) :
  toLowerCase (trimStart s) = trimStart (toLowerCase s).
Proof.
  induction s as [|c r IH]; simpl; [reflexivity|].
  rewrite is_space_lower_char.
  destruct (is_space c); [exact IH | reflexivity].
Qed.

Lemma toLowerCase_trimEnd (s : string) :
  toLowerCase (trimEnd s) = trimEnd (toLowerCase s).
Proof.
  induction s as [|c r IH]; simpl; [reflexivity|].
  rewrite is_space_lower_char, <- IH, is_empty_toLowerCase.
  destruct (is_space c && is_empty (trimEnd r)); reflexivity.
Qed.

Lemma toLowerCase_trim (s : string) : toLowerCase (trim s) = trim (toLowerCase s).
Proof.
  unfold trim. now rewrite toLowerCase_trimStart, toLowerCase_trimEnd.
Qed.

Lemma prefix_space_head (needle r : string) (c : ascii) :
  starts_nonspace needle = true -> is_space c = true ->
  String.prefix needle (String c r) = false.
Proof.
  destruct needle as [|a n]; simpl; [discriminate|].
  intros Ha Hc.
  destruct (ascii_dec a c) as [->|Hne]; [|reflexivity].
  rewrite Hc in Ha. discriminate.
Qed.

Lemma includes_trimStart (needle hay : string) :
  starts_nonspace needle = true ->
  includes needle (trimStart hay) = includes needle hay.
Proof.
  intros Hn. induction hay as [|c r IH]; [reflexivity|].
  cbn [trimStart]. destruct (is_space c) eqn:Hc; [|reflexivity].
  rewrite IH. cbn [includes].
  now rewrite (prefix_space_head needle r c Hn Hc).
Qed.

Lemma prefix_empty_hay (needle : string) :
  is_empty needle = false -> String.prefix needle EmptyString = false.
Proof. destruct needle; [discriminate | reflexivity]. Qed.

Lemma ends_nonspace_nonempty (s : string) : ends_nonspace s = true -> is_empty s = false.
Proof. destruct s; [discriminate | reflexivity]. Qed.

Lemma prefix_trimEnd (hay needle : string) :
  ends_nonspace needle = true ->
  String.prefix needle (trimEnd hay) = String.prefix needle hay.
Proof.
  revert needle. induction hay as [|c r IH]; intros needle Hn; [reflexivity|].
  cbn [trimEnd].
  destruct needle as [|a n]; [discriminate|].
  destruct (is_space c && is_empty (trimEnd r)) eqn:Hcut.
  - apply andb_true_iff in Hcut as [Hc He].
    cbn [String.prefix].
    destruct (ascii_dec a c) as [->|Hne]; [|reflexivity].
    destruct n as [|b n'].
    + cbn in Hn. rewrite Hc in Hn. discriminate.
    + assert (Hn' : ends_nonspace (String b n') = true) by exact Hn.
      rewrite <- (IH _ Hn').
      destruct (trimEnd r); [reflexivity | discriminate].
  - cbn [String.prefix].
    destruct (ascii_dec a c) as [->|Hne]; [|reflexivity].
    destruct n as [|b n']; [now destruct (trimEnd r), r|].
    apply IH. exact Hn.
Qed.

Lemma includes_trimEnd (needle hay : string) :
  ends_nonspace needle = true ->
  includes needle (trimEnd hay) = includes needle hay.
Proof.
  intros Hn. induction hay as [|c r IH]; [reflexivity|].
  cbn [includes]. rewrite <- IH, <- (prefix_trimEnd (String c r) needle Hn).
  cbn [trimEnd].
  destruct (is_space c && is_empty (trimEnd r)) eqn:Hcut; [|reflexivity].
  apply andb_true_iff in Hcut as [_ He].
  destruct (trimEnd r); [|discriminate].
  cbn [includes]. now rewrite orb_false_r, orb_diag.
Qed.

(** What the probes test on the trimmed output is what they would find in
    the raw output. *)
Lemma includes_lower_trim (needle out : string) :
  starts_nonspace needle = true -> ends_nonspace needle = true ->
  includes needle (toLowerCase (trim out)) = includes needle (toLowerCase out).
Proof.
  intros Hs He. rewrite toLowerCase_trim. unfold trim.
  now rewrite includes_trimStart, includes_trimEnd.
Qed.

End JsFacts.

(** ** The probes, as functions of what the host answers *)
Module ProbeFacts.
Import Js Tar Terms.

Lemma version_at_nonempty (s v : string) :
  Regex.version_at s = Some v -> is_empty v = false.
Proof.
  destruct s as [|d r]; simpl; [discriminate|].
  destruct (Regex.is_digit d); [|discriminate].
  now intros [= <-].
Qed.

Lemma exec_v_version_nonempty (s v : string) :
  Regex.exec_v_version s = Some v -> is_empty v = false.
Proof.
  induction s as [|c r IH]; simpl; [discriminate|].
  destruct (Ascii.eqb c "v"); [|exact IH].
  destruct (Regex.version_at r) as [w|] eqn:Hw; [|exact IH].
  intros [= <-]. exact (version_at_nonempty _ _ Hw).
Qed.

Lemma zstd_probe_eq (h : Host) (t : list Event) :
  zstd_probe h t =
  ((t ++ [zstd_spawn])%list,
   Ok (probe_output (run h "zstd" ["--version"]),
       Regex.exec_v_version (probe_output (run h "zstd" ["--version"])))).
Proof.
  cbv [zstd_probe catch bind Exec.getExecOutput emit host ret throw].
  destruct (run h "zstd" ["--version"]) as [msg|path code out err]; cbn.
  - reflexivity.
  - rewrite andb_false_r. reflexivity.
Qed.

Lemma lz4_probe_eq (h : Host) (t : list Event) :
  lz4_probe h t =
  ((t ++ [lz4_spawn])%list,
   Ok (probe_output (run h "lz4" ["--version"]),
       Regex.exec_version (probe_output (run h "lz4" ["--version"])))).
Proof.
  cbv [lz4_probe catch bind Exec.getExecOutput emit host ret throw].
  destruct (run h "lz4" ["--version"]) as [msg|path code out err]; cbn.
  - reflexivity.
  - rewrite andb_false_r. reflexivity.
Qed.

Lemma possibleWithZstd_eq (h : Host) (t : list Event) :
  possibleWithZstd h t =
  ((t ++ [zstd_spawn])%list, zstd_verdict (probe_output (run h "zstd" ["--version"]))).
Proof.
  unfold possibleWithZstd, bind at 1. rewrite zstd_probe_eq.
  unfold zstd_verdict.
  set (out := probe_output _).
  destruct (includes ZSTD_SIGNATURE (toLowerCase out)); cbn [negb]; [|reflexivity].
  destruct (Regex.exec_v_version out) as [v|] eqn:Hv; [|reflexivity].
  unfold truthy. rewrite (exec_v_version_nonempty _ _ Hv). cbn [negb].
  unfold bind, lift, ret.
  destruct (Semver.lt v ZSTD_WITHOUT_LONG_VERSION) as [[|]|e]; reflexivity.
Qed.

Lemma possibleWithLz4_eq (h : Host) (t : list Event) :
  possibleWithLz4 h t =
  ((t ++ [lz4_spawn])%list,
   Ok (if includes LZ4_SIGNATURE (toLowerCase (probe_output (run h "lz4" ["--version"])))
       then Some LZ4 else None)).
Proof.
  unfold possibleWithLz4, bind. rewrite lz4_probe_eq.
  destruct (includes LZ4_SIGNATURE _); reflexivity.
Qed.

Lemma unavailable_probe_output (signature : string) (p : Process) :
  starts_nonspace signature = true ->
  ends_nonspace signature = true ->
  includes signature (toLowerCase (probe_output p)) = negb (unavailable signature p).
Proof.
  intros Hs He. destruct p as [msg|path code out err]; cbn [probe_output unavailable].
  - cbn [toLowerCase includes]. rewrite JsFacts.prefix_empty_hay; [reflexivity|].
    now apply JsFacts.ends_nonspace_nonempty.
  - rewrite negb_involutive. now apply JsFacts.includes_lower_trim.
Qed.

Lemma zstd_signature_probe (p : Process) :
  includes ZSTD_SIGNATURE (toLowerCase (probe_output p)) = negb (unavailable ZSTD_SIGNATURE p).
Proof. now apply unavailable_probe_output. Qed.

Lemma lz4_signature_probe (p : Process) :
  includes LZ4_SIGNATURE (toLowerCase (probe_output p)) = negb (unavailable LZ4_SIGNATURE p).
Proof. now apply unavailable_probe_output. Qed.

(** The negotiation past its two early returns. *)
Lemma getTarCompressionMethod_probing (state : State) (h : Host) (t : list Event) :
  String.eqb (platform h) "win32" = false ->
  strict_eq (compressionMethod state) (value GZIP) = false ->
  getTarCompressionMethod state h t =
  if negb (unavailable LZ4_SIGNATURE (run h "lz4" ["--version"]))
     && strict_eq (compressionMethod state) (value LZ4)
  then ((t ++ [lz4_spawn])%list, Ok LZ4)
  else
    ((t ++ [lz4_spawn; zstd_spawn])%list,
     match zstd_verdict (probe_output (run h "zstd" ["--version"])) with
     | Ok (Some m) => Ok m
     | Ok None => Ok GZIP
     | Throw e => Throw e
     end).
Proof.
  intros Hos Hpref.
  unfold getTarCompressionMethod, bind at 1, host. rewrite Hos, Hpref.
  unfold bind at 1. rewrite possibleWithLz4_eq, lz4_signature_probe.
  assert (Hz : forall t0,
    bind possibleWithZstd
      (fun zstd => match zstd with Some m => ret m | None => ret GZIP end) h t0 =
    ((t0 ++ [zstd_spawn])%list,
     match zstd_verdict (probe_output (run h "zstd" ["--version"])) with
     | Ok (Some m) => Ok m
     | Ok None => Ok GZIP
     | Throw e => Throw e
     end)).
  { intros t0. unfold bind. rewrite possibleWithZstd_eq.
    destruct (zstd_verdict _) as [[m|]|e]; reflexivity. }
  destruct (unavailable LZ4_SIGNATURE (run h "lz4" ["--version"])); cbn [negb andb].
  - rewrite Hz, <- app_assoc. reflexivity.
  - destruct (strict_eq (compressionMethod state) (value LZ4)).
    + reflexivity.
    + rewrite Hz, <- app_assoc. reflexivity.
Qed.

End ProbeFacts.

(** ** The negotiator *)
Module Negotiation.
Import Js Tar Terms ProbeFacts Samples.

Lemma eqb_false_of_neq (a b : string) : a <> b -> String.eqb a b = false.
Proof. intros H. now apply String.eqb_neq. Qed.

Lemma strict_eq_false_of_neq (a : option string) (b : string) :
  a <> Some b -> strict_eq a b = false.
Proof.
  destruct a as [s|]; [|reflexivity]. intros H. cbn.
  apply String.eqb_neq. congruence.
Qed.

Lemma zstd_verdict_never_lz4 (out : string) : zstd_verdict out <> Ok (Some LZ4).
Proof.
  unfold zstd_verdict.
  destruct (includes ZSTD_SIGNATURE (toLowerCase out)); [|discriminate].
  destruct (Regex.exec_v_version out) as [v|]; [|discriminate].
  destruct (Semver.lt v ZSTD_WITHOUT_LONG_VERSION) as [[|]|e]; discriminate.
Qed.

Lemma zstd_verdict_unavailable (p : Process) :
  unavailable ZSTD_SIGNATURE p = true -> zstd_verdict (probe_output p) = Ok None.
Proof.
  intros H. unfold zstd_verdict. now rewrite zstd_signature_probe, H.
Qed.

(** C5: whatever the configured preference and whatever the tools on the
    host, on Windows the negotiator returns gzip and runs no probe: the
    list of events is left as it was. *)
Theorem windows_returns_gzip_without_probing
    (state : State) (h : Host) (t : list Event) :
  platform h = "win32" ->
  getTarCompressionMethod state h t = (t, Ok GZIP).
Proof.
  intros Hos. unfold getTarCompressionMethod, bind, host.
  now rewrite Hos.
Qed.

Lemma windows_returns_gzip_without_probing_witness :
  let h := host_with "win32" (prints "C:\lz4.exe" LZ4_192)
             (prints "C:\zstd.exe" ZSTD_148) 0 "" in
  platform h = "win32" /\
  getTarCompressionMethod (prefers "lz4") h [] = ([], Ok GZIP).
Proof.
  split; [reflexivity|].
  apply windows_returns_gzip_without_probing. reflexivity.
Defined.

(** C6: off Windows, whatever the tools on the host, a configured
    preference of gzip makes the negotiator return gzip with no probe run:
    the list of events is left as it was. *)
Theorem gzip_preference_returns_gzip_without_probing
    (state : State) (h : Host) (t : list Event) :
  platform h <> "win32" ->
  compressionMethod state = Some "gzip" ->
  getTarCompressionMethod state h t = (t, Ok GZIP).
Proof.
  intros Hos Hpref. unfold getTarCompressionMethod, bind, host.
  rewrite (eqb_false_of_neq _ _ Hos), Hpref. reflexivity.
Qed.

Lemma gzip_preference_returns_gzip_without_probing_witness :
  let h := host_with "linux" (prints "/usr/bin/lz4" LZ4_192)
             (prints "/usr/bin/zstd" ZSTD_148) 0 "" in
  platform h <> "win32" /\
  getTarCompressionMethod (prefers "gzip") h [] = ([], Ok GZIP).
Proof.
  split; [discriminate|].
  apply gzip_preference_returns_gzip_without_probing; [discriminate | reflexivity].
Defined.

(** C7: when the lz4 probe ran (so off Windows), its output in lower case
    contains "lz4 command line interface" and the configured preference is
    lz4, the negotiator returns lz4 after that one probe; the statement holds
    for every such output and exit code, so no version number in the output
    has a say. *)
Theorem lz4_preferred_and_present_returns_lz4
    (state : State) (h : Host) (t : list Event)
    (toolPath : string) (code : Z) (out err : string) :
  platform h <> "win32" ->
  compressionMethod state = Some "lz4" ->
  run h "lz4" ["--version"] = Exited toolPath code out err ->
  includes "lz4 command line interface" (toLowerCase out) = true ->
  getTarCompressionMethod state h t = ((t ++ [lz4_spawn])%list, Ok LZ4).
Proof.
  intros Hos Hpref Hrun Hsig.
  rewrite getTarCompressionMethod_probing.
  - rewrite Hrun, Hpref. cbn [unavailable].
    change LZ4_SIGNATURE with "lz4 command line interface".
    rewrite Hsig. reflexivity.
  - now apply eqb_false_of_neq.
  - rewrite Hpref. reflexivity.
Qed.

Lemma lz4_preferred_and_present_returns_lz4_witness :
  let h := host_with "linux" (prints "/usr/bin/lz4" LZ4_192) (missing "zstd") 0 "" in
  getTarCompressionMethod (prefers "lz4") h [] = ([lz4_spawn], Ok LZ4).
Proof.
  apply (lz4_preferred_and_present_returns_lz4 (prefers "lz4") _ []
           "/usr/bin/lz4" 0 (LZ4_192 ++ String "010" "") "");
    [discriminate | reflexivity | reflexivity | reflexivity].
Defined.

(** C9: off Windows, with no preference configured, when neither the lz4
    probe nor the zstd probe finds its tool (the command did not start, or
    its output lacks the signature), the negotiator returns gzip, having run
    both probes. *)
Theorem nothing_available_returns_gzip
    (state : State) (h : Host) (t : list Event) :
  platform h <> "win32" ->
  compressionMethod state = None ->
  unavailable LZ4_SIGNATURE (run h "lz4" ["--version"]) = true ->
  unavailable ZSTD_SIGNATURE (run h "zstd" ["--version"]) = true ->
  getTarCompressionMethod state h t = ((t ++ [lz4_spawn; zstd_spawn])%list, Ok GZIP).
Proof.
  intros Hos Hpref Hlz4 Hzstd.
  rewrite getTarCompressionMethod_probing.
  - rewrite Hlz4, (zstd_verdict_unavailable _ Hzstd). reflexivity.
  - now apply eqb_false_of_neq.
  - rewrite Hpref. reflexivity.
Qed.

Lemma nothing_available_returns_gzip_witness :
  let h := host_with "linux" (missing "lz4") (prints "/usr/bin/zstd" "zstd: unknown option") 0 "" in
  getTarCompressionMethod unset h [] = ([lz4_spawn; zstd_spawn], Ok GZIP).
Proof.
  apply (nothing_available_returns_gzip unset _ []);
    [discriminate | reflexivity | reflexivity | reflexivity].
Defined.

(** C10: off Windows, two configured preferences that are each neither gzip
    nor lz4 (unset, unrecognized text, the tag zstd itself) give the same
    negotiation, events and result, on the same host. In particular a
    preference of zstd neither forces zstd (without the tool the result is
    gzip) nor forbids it, and lz4 is never the result unless the preference
    is lz4, even on a host where lz4 is the only tool installed. *)
Theorem preference_other_than_gzip_lz4_has_no_influence :
  (forall (s1 s2 : State) (h : Host) (t : list Event),
      platform h <> "win32" -> indifferent s1 -> indifferent s2 ->
      getTarCompressionMethod s1 h t = getTarCompressionMethod s2 h t) /\
  (forall (s : State) (h : Host) (t : list Event),
      compressionMethod s <> Some "lz4" ->
      snd (getTarCompressionMethod s h t) <> Ok LZ4) /\
  (let h := host_with "linux" (prints "/usr/bin/lz4" LZ4_192) (missing "zstd") 0 "" in
   snd (getTarCompressionMethod (prefers "zstd") h []) = Ok GZIP /\
   snd (getTarCompressionMethod unset h []) = Ok GZIP) /\
  (let h := host_with "linux" (missing "lz4") (prints "/usr/bin/zstd" ZSTD_148) 0 "" in
   snd (getTarCompressionMethod (prefers "zstd") h []) = Ok ZSTD /\
   snd (getTarCompressionMethod unset h []) = Ok ZSTD).
Proof.
  split; [|split; [|split; [split; reflexivity | split; reflexivity]]].
  - intros s1 s2 h t Hos [Hg1 Hl1] [Hg2 Hl2].
    rewrite !getTarCompressionMethod_probing;
      try (now apply eqb_false_of_neq); try (now apply strict_eq_false_of_neq).
    rewrite (strict_eq_false_of_neq _ _ Hl1), (strict_eq_false_of_neq _ _ Hl2).
    reflexivity.
  - intros s h t Hl.
    destruct (String.eqb (platform h) "win32") eqn:Hos.
    + unfold getTarCompressionMethod, bind, host. rewrite Hos. discriminate.
    + destruct (strict_eq (compressionMethod s) (value GZIP)) eqn:Hg.
      * unfold getTarCompressionMethod, bind, host. rewrite Hos, Hg. discriminate.
      * rewrite getTarCompressionMethod_probing by assumption.
        rewrite (strict_eq_false_of_neq _ (value LZ4) Hl), andb_false_r. cbn [snd].
        pose proof (zstd_verdict_never_lz4
                      (probe_output (run h "zstd" ["--version"]))) as Hv.
        destruct (zstd_verdict _) as [[m|]|e]; [|discriminate|discriminate].
        intros [= ->]. now apply Hv.
Qed.

Lemma preference_other_than_gzip_lz4_has_no_influence_witness :
  let h := host_with "linux" (prints "/usr/bin/lz4" LZ4_192)
             (prints "/usr/bin/zstd" ZSTD_131) 0 "" in
  getTarCompressionMethod (prefers "zstd") h [] = getTarCompressionMethod (prefers "brotli") h [] /\
  snd (getTarCompressionMethod unset h []) <> Ok LZ4.
Proof.
  split.
  - apply (proj1 preference_other_than_gzip_lz4_has_no_influence);
      [discriminate | split; discriminate | split; discriminate].
  - apply (proj1 (proj2 preference_other_than_gzip_lz4_has_no_influence)).
    discriminate.
Defined.

End Negotiation.

(** ** Creating and extracting archives *)
Module Archives.
Import Js Tar Terms ProbeFacts Samples.

Lemma buildCompressionArgs_value (m : CompressionMethod) :
  buildCompressionArgs (value m) = Some (creation_flags m).
Proof. destruct m; reflexivity. Qed.

Lemma buildDecompressionArgs_value (m : CompressionMethod) :
  buildDecompressionArgs (value m) = Some (extraction_flags m).
Proof. destruct m; reflexivity. Qed.

Lemma buildDecompressionArgs_unknown (tag : string) :
  (forall m, tag <> value m) -> buildDecompressionArgs tag = None.
Proof.
  intros H. unfold buildDecompressionArgs.
  rewrite (Negotiation.eqb_false_of_neq _ _ (H GZIP)),
          (Negotiation.eqb_false_of_neq _ _ (H ZSTD_WITHOUT_LONG)),
          (Negotiation.eqb_false_of_neq _ _ (H ZSTD)),
          (Negotiation.eqb_false_of_neq _ _ (H LZ4)).
  reflexivity.
Qed.

Lemma exec_eq (commandLine : string) (args : list string) (h : Host) (t : list Event) :
  Exec.exec commandLine args h t =
  ((t ++ [Spawn commandLine args Exec.default_options])%list,
   exec_outcome (run h commandLine args)).
Proof.
  cbv [Exec.exec Exec.getExecOutput bind emit host ret throw exec_outcome].
  destruct (run h commandLine args) as [msg|path code out err]; [reflexivity|].
  cbn. rewrite andb_true_r. destruct (code =? 0)%Z; reflexivity.
Qed.

Lemma extractTar_eq (archivePath : string) (m : CompressionMethod) (cwd : string)
    (h : Host) (t : list Event) :
  let argv := ("-x" :: extraction_flags m ++ ["-P"; "-f"; archivePath; "-C"; cwd])%list in
  extractTar archivePath (value m) cwd h t =
  ((t ++ [Log (detected_message (value m)); Spawn "tar" argv Exec.default_options])%list,
   match exec_outcome (run h "tar" argv) with
   | Ok _ => Ok tt
   | Throw e => Throw e
   end).
Proof.
  intros argv. unfold extractTar.
  rewrite buildDecompressionArgs_value.
  unfold bind at 1, emit. unfold bind at 1, spread, ret at 1.
  unfold bind. rewrite exec_eq. fold argv. rewrite <- app_assoc.
  destruct (exec_outcome _); reflexivity.
Qed.

Lemma createTar_eq (state : State) (archivePath : string) (paths : list string)
    (cwd : string) (h : Host) (t t' : list Event) (m : CompressionMethod) :
  getTarCompressionMethod state h t = (t', Ok m) ->
  let argv := ("-c" :: creation_flags m
                 ++ ["--posix"; "-P"; "-f"; archivePath; "-C"; cwd] ++ paths)%list in
  createTar state archivePath paths cwd h t =
  ((t' ++ [Log (using_message (value m)); Spawn "tar" argv Exec.default_options])%list,
   match exec_outcome (run h "tar" argv) with
   | Ok _ => Ok m
   | Throw e => Throw e
   end).
Proof.
  intros Hm argv. unfold createTar.
  unfold bind at 1. rewrite Hm.
  rewrite buildCompressionArgs_value.
  unfold bind at 1, emit. unfold bind at 1, spread, ret at 1.
  unfold bind. rewrite exec_eq. fold argv. rewrite <- app_assoc.
  destruct (exec_outcome _); reflexivity.
Qed.

(** C8: for each compression method, [createTar] runs tar once, with [-c],
    the method's compression flags (gzip: -z; zstd without long:
    --use-compress-program "zstd -T0"; zstd: --use-compress-program
    "zstd -T0 --long=30"; lz4: --use-compress-program "lz4 --fast -BD"), then
    [--posix -P -f archivePath -C workingDir] and the paths; [extractTar] runs
    tar once, with [-x], the method's decompression flags (gzip: -z; zstd
    without long: --use-compress-program "zstd -d"; zstd:
    --use-compress-program "zstd -d --long=30"; lz4: --use-compress-program
    "lz4 -d"), then [-P -f archivePath -C workingDir]. *)
Theorem tar_arguments_per_method (m : CompressionMethod) :
  buildCompressionArgs (value m) = Some (creation_flags m) /\
  buildDecompressionArgs (value m) = Some (extraction_flags m) /\
  (forall (state : State) (archivePath : string) (paths : list string)
          (cwd : string) (h : Host) (t t' : list Event),
      getTarCompressionMethod state h t = (t', Ok m) ->
      fst (createTar state archivePath paths cwd h t) =
      (t' ++ [Log (using_message (value m));
              Spawn "tar"
                ("-c" :: creation_flags m
                   ++ ["--posix"; "-P"; "-f"; archivePath; "-C"; cwd] ++ paths)
                Exec.default_options])%list) /\
  (forall (archivePath cwd : string) (h : Host) (t : list Event),
      fst (extractTar archivePath (value m) cwd h t) =
      (t ++ [Log (detected_message (value m));
             Spawn "tar"
               ("-x" :: extraction_flags m ++ ["-P"; "-f"; archivePath; "-C"; cwd])
               Exec.default_options])%list).
Proof.
  split; [apply buildCompressionArgs_value|].
  split; [apply buildDecompressionArgs_value|].
  split.
  - intros state archivePath paths cwd h t t' Hm.
    now rewrite (createTar_eq _ archivePath paths cwd _ _ _ _ Hm).
  - intros archivePath cwd h t. now rewrite extractTar_eq.
Qed.

Lemma tar_arguments_per_method_witness :
  let h := host_with "linux" (missing "lz4") (prints "/usr/bin/zstd" ZSTD_148) 0 "" in
  fst (createTar unset "/tmp/cache.tar" ["node_modules"; "dist"] "/work" h []) =
  [lz4_spawn; zstd_spawn;
   Log (using_message "zstd");
   Spawn "tar"
     ["-c"; "--use-compress-program"; "zstd -T0 --long=30"; "--posix"; "-P";
      "-f"; "/tmp/cache.tar"; "-C"; "/work"; "node_modules"; "dist"]
     Exec.default_options].
Proof.
  apply (proj1 (proj2 (proj2 (tar_arguments_per_method ZSTD)))
           unset "/tmp/cache.tar" ["node_modules"; "dist"] "/work" _ []
           [lz4_spawn; zstd_spawn]).
  reflexivity.
Defined.

(** C2, as the code has it: for a method tag that is none of the four values
    [buildDecompressionArgs] yields no flag list at all, so no method's flags
    are used in its place, and [extractTar] fails before tar is run, with the
    runtime's [TypeError] for spreading a value that is not iterable. *)
Theorem unknown_method_tag_fails_before_tar
    (archivePath tag cwd : string) (h : Host) (t : list Event) :
  (forall m, tag <> value m) ->
  buildDecompressionArgs tag = None /\
  extractTar archivePath tag cwd h t =
  ((t ++ [Log (detected_message tag)])%list,
   Throw (TypeError "compressionArgs is not iterable")).
Proof.
  intros Hunknown.
  pose proof (buildDecompressionArgs_unknown tag Hunknown) as Hnone.
  split; [exact Hnone|].
  unfold extractTar. rewrite Hnone. reflexivity.
Qed.

Lemma unknown_method_tag_fails_before_tar_witness :
  extractTar "/tmp/cache.tar" "bzip2" "/work"
    (host_with "linux" (missing "lz4") (missing "zstd") 0 "") [] =
  ([Log (detected_message "bzip2")],
   Throw (TypeError "compressionArgs is not iterable")).
Proof.
  apply (unknown_method_tag_fails_before_tar "/tmp/cache.tar" "bzip2" "/work").
  intros m; destruct m; discriminate.
Defined.

(** C2, as stated, fails: for the tag bzip2, which is none of the four
    values, the exception [extractTar] fails with does not say that the
    compression method is unrecognized. *)
Lemma unknown_method_tag_error_is_not_named :
  (forall m, "bzip2" <> value m) /\
  ~ exists e,
      snd (extractTar "/tmp/cache.tar" "bzip2" "/work"
             (host_with "linux" (missing "lz4") (missing "zstd") 0 "") []) = Throw e /\
      names_unrecognized_method e = true.
Proof.
  split; [intros m; destruct m; discriminate|].
  intros [e [He Hn]]. cbn in He. injection He as <-.
  vm_compute in Hn. discriminate.
Qed.




End Archives.

(** ** The version patterns *)
Module RegexFacts.
Import Js Regex Terms Shapes.

Lemma digit_not_space (c : ascii) : is_digit c = true -> is_space c = false.
Proof. destruct c as [[] [] [] [] [] [] [] []]; cbn; congruence. Qed.

Lemma dot_not_space (c : ascii) : is_dot c = true -> is_space c = false.
Proof. destruct c as [[] [] [] [] [] [] [] []]; cbn; congruence. Qed.

Lemma v_not_space (c : ascii) : Ascii.eqb c "v" = true -> is_space c = false.
Proof. intros H. apply Ascii.eqb_eq in H. now subst. Qed.

Lemma space_not_digit (c : ascii) : is_space c = true -> is_digit c = false.
Proof.
  intros H. destruct (is_digit c) eqn:Hd; [|reflexivity].
  rewrite (digit_not_space c Hd) in H. discriminate.
Qed.

Lemma space_not_dot (c : ascii) : is_space c = true -> is_dot c = false.
Proof.
  intros H. destruct (is_dot c) eqn:Hd; [|reflexivity].
  rewrite (dot_not_space c Hd) in H. discriminate.
Qed.

Lemma space_not_v (c : ascii) : is_space c = true -> Ascii.eqb c "v" = false.
Proof.
  intros H. destruct (Ascii.eqb c "v") eqn:Hv; [|reflexivity].
  rewrite (v_not_space c Hv) in H. discriminate.
Qed.

(** The head of [trimEnd r] when [r] starts with a character that is not
    white space. *)
Lemma trimEnd_head (d : ascii) (r : string) :
  is_space d = false -> trimEnd (String d r) = String d (trimEnd r).
Proof. intros H. cbn [trimEnd]. now rewrite H. Qed.

Lemma version_rest_trimEnd (s : string) : version_rest (trimEnd s) = version_rest s.
Proof.
  induction s as [|c r IH]; [reflexivity|].
  cbn [trimEnd].
  destruct (is_space c && is_empty (trimEnd r)) eqn:Hcut.
  - apply andb_true_iff in Hcut as [Hc _]. cbn [version_rest].
    now rewrite (space_not_digit c Hc), (space_not_dot c Hc).
  - cbn [version_rest]. rewrite IH.
    destruct (is_digit c); [reflexivity|].
    destruct (is_dot c); [|reflexivity].
    destruct r as [|d r']; [reflexivity|].
    destruct (is_digit d) eqn:Hd.
    + rewrite (trimEnd_head d r' (digit_not_space d Hd)). now rewrite Hd.
    + cbn [trimEnd]. destruct (is_space d && is_empty (trimEnd r')); [reflexivity|].
      now rewrite Hd.
Qed.

Lemma version_at_trimEnd (s : string) : version_at (trimEnd s) = version_at s.
Proof.
  destruct s as [|d r]; [reflexivity|].
  destruct (is_digit d) eqn:Hd.
  - rewrite (trimEnd_head d r (digit_not_space d Hd)). cbn [version_at].
    now rewrite Hd, version_rest_trimEnd.
  - cbn [trimEnd version_at]. rewrite Hd.
    destruct (is_space d && is_empty (trimEnd r)); [reflexivity|].
    cbn [version_at]. now rewrite Hd.
Qed.

Lemma exec_v_version_trimEnd (s : string) :
  exec_v_version (trimEnd s) = exec_v_version s.
Proof.
  induction s as [|c r IH]; [reflexivity|].
  cbn [trimEnd].
  destruct (is_space c && is_empty (trimEnd r)) eqn:Hcut.
  - apply andb_true_iff in Hcut as [Hc He]. cbn [exec_v_version].
    rewrite (space_not_v c Hc), <- IH.
    destruct (trimEnd r); [reflexivity | discriminate].
  - cbn [exec_v_version]. now rewrite IH, version_at_trimEnd.
Qed.

Lemma exec_v_version_trimStart (s : string) :
  exec_v_version (trimStart s) = exec_v_version s.
Proof.
  induction s as [|c r IH]; [reflexivity|].
  cbn [trimStart]. destruct (is_space c) eqn:Hc; [|reflexivity].
  rewrite IH. cbn [exec_v_version]. now rewrite (space_not_v c Hc).
Qed.

Lemma exec_v_version_trim (s : string) : exec_v_version (trim s) = exec_v_version s.
Proof. unfold trim. now rewrite exec_v_version_trimStart, exec_v_version_trimEnd. Qed.

Lemma split_dots_nonempty (s : string) : Semver.split_dots s <> [].
Proof.
  induction s as [|c r IH]; cbn; [discriminate|].
  destruct (is_dot c); [discriminate|].
  destruct (Semver.split_dots r); discriminate.
Qed.

Lemma split_dots_digit_head (d : ascii) (w : string) :
  is_digit d = true ->
  Semver.split_dots (String d w) =
  String d (hd EmptyString (Semver.split_dots w)) :: tl (Semver.split_dots w).
Proof.
  intros Hd. cbn [Semver.split_dots].
  assert (Hdot : is_dot d = false).
  { destruct d as [[] [] [] [] [] [] [] []]; cbn in *; congruence. }
  rewrite Hdot.
  pose proof (split_dots_nonempty w) as Hne.
  destruct (Semver.split_dots w); [contradiction | reflexivity].
Qed.

Lemma version_rest_loose_runs (r : string) : loose_runs (version_rest r) = true.
Proof.
  induction r as [|c r IH]; [reflexivity|].
  cbn [version_rest].
  destruct (is_digit c) eqn:Hc.
  - unfold loose_runs in *. rewrite (split_dots_digit_head c _ Hc).
    cbn [hd tl Semver.all_digits]. now rewrite Hc.
  - destruct (is_dot c) eqn:Hdot; [|reflexivity].
    destruct r as [|d r']; [reflexivity|].
    destruct (is_digit d) eqn:Hd; [|reflexivity].
    unfold loose_runs in *. cbn [Semver.split_dots]. rewrite Hdot.
    cbn [hd tl Semver.all_digits andb forallb].
    cbn [version_rest] in IH |- *. rewrite Hd in IH |- *.
    rewrite (split_dots_digit_head d _ Hd) in IH |- *.
    cbn [hd tl forallb Semver.all_digits] in IH |- *.
    unfold digit_run at 1. cbn [is_empty negb Semver.all_digits andb].
    exact IH.
Qed.

Lemma version_at_runs (s v : string) :
  version_at s = Some v -> forallb digit_run (Semver.split_dots v) = true.
Proof.
  destruct s as [|d r]; cbn [version_at]; [discriminate|].
  destruct (is_digit d) eqn:Hd; [|discriminate].
  intros [= <-]. rewrite (split_dots_digit_head d _ Hd).
  pose proof (version_rest_loose_runs r) as H. unfold loose_runs in H.
  cbn [forallb]. unfold digit_run at 1.
  cbn [is_empty negb Semver.all_digits andb]. now rewrite Hd.
Qed.

Lemma exec_v_version_at (s v : string) :
  exec_v_version s = Some v -> exists r, version_at r = Some v.
Proof.
  induction s as [|c r IH]; cbn [exec_v_version]; [discriminate|].
  destruct (Ascii.eqb c "v"); [|exact IH].
  destruct (version_at r) as [w|] eqn:Hw; [|exact IH].
  intros [= <-]. now exists r.
Qed.

Lemma exec_version_at (s v : string) :
  exec_version s = Some v -> exists r, version_at r = Some v.
Proof.
  induction s as [|c r IH]; [discriminate|].
  cbn [exec_version].
  destruct (version_at (String c r)) as [w|] eqn:Hw; [|exact IH].
  intros [= <-]. now exists (String c r).
Qed.

(** X2: whatever text the two version patterns are applied to, the token
    they capture is a list of non-empty runs of digits separated by single
    dots. *)
Theorem version_token_is_dotted_digit_runs (s v : string) :
  exec_v_version s = Some v \/ exec_version s = Some v ->
  forallb digit_run (Semver.split_dots v) = true.
Proof.
  intros [H|H].
  - destruct (exec_v_version_at s v H) as [r Hr]. exact (version_at_runs r v Hr).
  - destruct (exec_version_at s v H) as [r Hr]. exact (version_at_runs r v Hr).
Qed.

Lemma version_token_is_dotted_digit_runs_witness :
  forallb digit_run (Semver.split_dots "1.4.8") = true.
Proof.
  apply (version_token_is_dotted_digit_runs Samples.ZSTD_148 "1.4.8").
  left. reflexivity.
Defined.

End RegexFacts.

(** ** Probes that fail *)
Module Failures.
Import Js Tar Terms ProbeFacts Samples.

(** What the zstd probe answers when the command ran and printed the
    signature: decided by the version token and [semver.lt]. *)
Lemma possibleWithZstd_by_version (h : Host) (t : list Event)
    (toolPath : string) (code : Z) (out err : string) :
  run h "zstd" ["--version"] = Exited toolPath code out err ->
  includes ZSTD_SIGNATURE (toLowerCase out) = true ->
  snd (possibleWithZstd h t) =
  match Regex.exec_v_version (trim out) with
  | None => Ok (Some ZSTD_WITHOUT_LONG)
  | Some v =>
      match Semver.lt v ZSTD_WITHOUT_LONG_VERSION with
      | Ok true => Ok (Some ZSTD_WITHOUT_LONG)
      | Ok false => Ok (Some ZSTD)
      | Throw e => Throw e
      end
  end.
Proof.
  intros Hrun Hsig. rewrite possibleWithZstd_eq. cbn [snd].
  unfold zstd_verdict. rewrite zstd_signature_probe, Hrun.
  cbn [unavailable probe_output]. rewrite Hsig. reflexivity.
Qed.

Example zstd_1_3_1_is_without_long :
  snd (getTarCompressionMethod unset
         (host_with "linux" (missing "lz4") (prints "/usr/bin/zstd" ZSTD_131) 0 "") []) =
  Ok ZSTD_WITHOUT_LONG.
Proof. reflexivity. Qed.

Example zstd_1_3_2_is_zstd :
  snd (getTarCompressionMethod unset
         (host_with "linux" (missing "lz4")
            (prints "/usr/bin/zstd" "*** zstd command line interface 64-bits v1.3.2, by Yann Collet ***")
            0 "") []) =
  Ok ZSTD.
Proof. reflexivity. Qed.

Example zstd_1_4_0_is_zstd :
  snd (getTarCompressionMethod unset
         (host_with "linux" (missing "lz4")
            (prints "/usr/bin/zstd" "*** zstd command line interface 64-bits v1.4.0, by Yann Collet ***")
            0 "") []) =
  Ok ZSTD.
Proof. reflexivity. Qed.

Example zstd_without_version_is_without_long :
  snd (getTarCompressionMethod unset
         (host_with "linux" (missing "lz4")
            (prints "/usr/bin/zstd" "*** zstd command line interface 64-bits, by Yann Collet ***")
            0 "") []) =
  Ok ZSTD_WITHOUT_LONG.
Proof. reflexivity. Qed.

(** C1 at an output whose version token has two components: the output
    carries the signature and the token 1.4, which is above 1.3.2, yet the
    zstd probe returns no method: [semver.lt] rejects the token, outside the
    probe's [catch], and the negotiation and [createTar] are aborted with its
    [TypeError]. *)
Theorem zstd_version_of_two_components_aborts :
  let out := "*** zstd command line interface 64-bits v1.4, by Yann Collet ***" in
  let h := host_with "linux" (missing "lz4") (prints "/usr/bin/zstd" out) 0 "" in
  includes "zstd command line interface" (toLowerCase out) = true /\
  Regex.exec_v_version out = Some "1.4" /\
  snd (possibleWithZstd h []) = Throw (TypeError "Invalid Version: 1.4") /\
  snd (getTarCompressionMethod unset h []) = Throw (TypeError "Invalid Version: 1.4") /\
  createTar unset "/tmp/cache.tar" ["dist"] "/work" h [] =
    ([lz4_spawn; zstd_spawn], Throw (TypeError "Invalid Version: 1.4")).
Proof. repeat split; reflexivity. Qed.

(** C3, as the code has it: a probe, lz4 or zstd, whose command does not
    start, or whose standard output lacks the tool's signature whatever the
    exit code, yields no method without raising, and the negotiation goes on:
    to the zstd probe after lz4, to gzip after zstd. The exit code is not
    looked at by either probe: an lz4 that printed its signature is found
    whatever its exit code, and so is a zstd, which the probe never reports
    as absent and whose method is decided by the version token alone. The
    lz4 probe never raises. *)
Theorem failed_probe_means_unavailable (h : Host) (t : list Event) :
  (unavailable LZ4_SIGNATURE (run h "lz4" ["--version"]) = true ->
   possibleWithLz4 h t = ((t ++ [lz4_spawn])%list, Ok None)) /\
  (unavailable ZSTD_SIGNATURE (run h "zstd" ["--version"]) = true ->
   possibleWithZstd h t = ((t ++ [zstd_spawn])%list, Ok None)) /\
  (exists r, snd (possibleWithLz4 h t) = Ok r) /\
  (forall toolPath code out err,
      run h "lz4" ["--version"] = Exited toolPath code out err ->
      includes LZ4_SIGNATURE (toLowerCase out) = true ->
      snd (possibleWithLz4 h t) = Ok (Some LZ4)) /\
  (forall state : State,
      platform h <> "win32" ->
      compressionMethod state <> Some "gzip" ->
      unavailable LZ4_SIGNATURE (run h "lz4" ["--version"]) = true ->
      getTarCompressionMethod state h t =
      (zstd <- possibleWithZstd ;;
       ret (match zstd with Some m => m | None => GZIP end)) h (t ++ [lz4_spawn])%list) /\
  (forall state : State,
      platform h <> "win32" ->
      compressionMethod state <> Some "gzip" ->
      unavailable LZ4_SIGNATURE (run h "lz4" ["--version"]) = true ->
      unavailable ZSTD_SIGNATURE (run h "zstd" ["--version"]) = true ->
      getTarCompressionMethod state h t =
      ((t ++ [lz4_spawn; zstd_spawn])%list, Ok GZIP)) /\
  (forall toolPath code out err,
      run h "zstd" ["--version"] = Exited toolPath code out err ->
      includes ZSTD_SIGNATURE (toLowerCase out) = true ->
      snd (possibleWithZstd h t) <> Ok None /\
      (Regex.exec_v_version out = None ->
       snd (possibleWithZstd h t) = Ok (Some ZSTD_WITHOUT_LONG)) /\
      (forall v older,
          Regex.exec_v_version out = Some v ->
          Semver.lt v ZSTD_WITHOUT_LONG_VERSION = Ok older ->
          snd (possibleWithZstd h t) =
          Ok (Some (if older then ZSTD_WITHOUT_LONG else ZSTD)))) /\
  (forall state : State,
      platform h <> "win32" ->
      compressionMethod state <> Some "gzip" ->
      unavailable LZ4_SIGNATURE (run h "lz4" ["--version"]) = true \/
      compressionMethod state <> Some "lz4" ->
      unavailable ZSTD_SIGNATURE (run h "zstd" ["--version"]) = true ->
      getTarCompressionMethod state h t =
      ((t ++ [lz4_spawn; zstd_spawn])%list, Ok GZIP)).
Proof.
  assert (Hraw : forall toolPath code out err,
             run h "zstd" ["--version"] = Exited toolPath code out err ->
             includes ZSTD_SIGNATURE (toLowerCase out) = true ->
             snd (possibleWithZstd h t) =
             match Regex.exec_v_version out with
             | None => Ok (Some ZSTD_WITHOUT_LONG)
             | Some v =>
                 match Semver.lt v ZSTD_WITHOUT_LONG_VERSION with
                 | Ok true => Ok (Some ZSTD_WITHOUT_LONG)
                 | Ok false => Ok (Some ZSTD)
                 | Throw e => Throw e
                 end
             end).
  { intros toolPath code out err Hrun Hsig.
    rewrite (possibleWithZstd_by_version h t toolPath code out err Hrun Hsig).
    now rewrite RegexFacts.exec_v_version_trim. }
  repeat apply conj.
  - intros H. now rewrite possibleWithLz4_eq, lz4_signature_probe, H.
  - intros H. rewrite possibleWithZstd_eq.
    now rewrite (Negotiation.zstd_verdict_unavailable _ H).
  - rewrite possibleWithLz4_eq. eexists. reflexivity.
  - intros toolPath code out err Hrun Hsig.
    rewrite possibleWithLz4_eq, lz4_signature_probe, Hrun.
    cbn [unavailable snd]. now rewrite Hsig.
  - intros state Hos Hpref Hlz4.
    rewrite getTarCompressionMethod_probing;
      [| now apply Negotiation.eqb_false_of_neq
       | now apply Negotiation.strict_eq_false_of_neq].
    rewrite Hlz4. cbn [negb andb].
    unfold bind. rewrite possibleWithZstd_eq, <- app_assoc.
    destruct (zstd_verdict _) as [[m|]|e]; reflexivity.
  - intros state Hos Hpref Hlz4 Hzstd.
    rewrite getTarCompressionMethod_probing;
      [| now apply Negotiation.eqb_false_of_neq
       | now apply Negotiation.strict_eq_false_of_neq].
    rewrite Hlz4, (Negotiation.zstd_verdict_unavailable _ Hzstd). reflexivity.
  - intros toolPath code out err Hrun Hsig.
    rewrite (Hraw toolPath code out err Hrun Hsig).
    split; [|split].
    + destruct (Regex.exec_v_version out) as [v|]; [|discriminate].
      destruct (Semver.lt v ZSTD_WITHOUT_LONG_VERSION) as [[|]|e]; discriminate.
    + now intros ->.
    + intros v older -> ->. now destruct older.
  - intros state Hos Hpref Hlz4 Hzstd.
    rewrite getTarCompressionMethod_probing;
      [| now apply Negotiation.eqb_false_of_neq
       | now apply Negotiation.strict_eq_false_of_neq].
    assert (Hoff : negb (unavailable LZ4_SIGNATURE (run h "lz4" ["--version"]))
                   && strict_eq (compressionMethod state) (value LZ4) = false).
    { apply andb_false_iff. destruct Hlz4 as [Ha|Hp].
      - left. now rewrite Ha.
      - right. now apply Negotiation.strict_eq_false_of_neq. }
    rewrite Hoff, (Negotiation.zstd_verdict_unavailable _ Hzstd). reflexivity.
Qed.

Lemma failed_probe_means_unavailable_witness :
  let h := host_with "linux" (Exited "/usr/bin/lz4" 1 "" "lz4: bad usage")
             (missing "zstd") 0 "" in
  possibleWithLz4 h [] = ([lz4_spawn], Ok None) /\
  possibleWithZstd h [] = ([zstd_spawn], Ok None) /\
  getTarCompressionMethod (prefers "lz4") h [] = ([lz4_spawn; zstd_spawn], Ok GZIP) /\
  (let h' := host_with "linux" (prints "/usr/bin/lz4" LZ4_192)
               (Exited "/usr/bin/zstd" 1 ZSTD_148 "zstd: error") 0 "" in
   snd (possibleWithLz4 h' []) = Ok (Some LZ4) /\
   snd (possibleWithZstd h' []) <> Ok None /\
   snd (possibleWithZstd h' []) = Ok (Some ZSTD)) /\
  (let h' := host_with "linux" (prints "/usr/bin/lz4" LZ4_192) (missing "zstd") 0 "" in
   getTarCompressionMethod unset h' [] = ([lz4_spawn; zstd_spawn], Ok GZIP)).
Proof.
  cbv zeta. split; [|split; [|split; [|split; [split; [|split]|]]]].
  - apply (proj1 (failed_probe_means_unavailable _ [])). reflexivity.
  - apply (proj1 (proj2 (failed_probe_means_unavailable _ []))). reflexivity.
  - apply (proj1 (proj2 (proj2 (proj2 (proj2 (proj2
             (failed_probe_means_unavailable _ [])))))));
      [discriminate | discriminate | reflexivity | reflexivity].
  - apply (proj1 (proj2 (proj2 (proj2
             (failed_probe_means_unavailable
                (host_with "linux" (prints "/usr/bin/lz4" LZ4_192)
                   (Exited "/usr/bin/zstd" 1 ZSTD_148 "zstd: error") 0 "") []))))
             "/usr/bin/lz4" 0%Z (LZ4_192 ++ String "010" "") "");
      reflexivity.
  - apply (proj1 (proj1 (proj2 (proj2 (proj2 (proj2 (proj2 (proj2
             (failed_probe_means_unavailable
                (host_with "linux" (prints "/usr/bin/lz4" LZ4_192)
                   (Exited "/usr/bin/zstd" 1 ZSTD_148 "zstd: error") 0 "") [])))))))
             "/usr/bin/zstd" 1%Z ZSTD_148 "zstd: error" eq_refl eq_refl)).
  - apply (proj2 (proj2 (proj1 (proj2 (proj2 (proj2 (proj2 (proj2 (proj2
             (failed_probe_means_unavailable
                (host_with "linux" (prints "/usr/bin/lz4" LZ4_192)
                   (Exited "/usr/bin/zstd" 1 ZSTD_148 "zstd: error") 0 "") [])))))))
             "/usr/bin/zstd" 1%Z ZSTD_148 "zstd: error" eq_refl eq_refl))
             "1.4.8" false); reflexivity.
  - apply (proj2 (proj2 (proj2 (proj2 (proj2 (proj2 (proj2
             (failed_probe_means_unavailable
                (host_with "linux" (prints "/usr/bin/lz4" LZ4_192) (missing "zstd") 0 "")
                []))))))));
      [discriminate | discriminate | right; discriminate | reflexivity].
Defined.

(** C3, as stated, fails: a zstd that exits with code 1 after printing its
    signature and version is not treated as unavailable: the probe returns
    zstd and so does the negotiation. *)
Lemma nonzero_exit_probe_is_still_available :
  let h := host_with "linux" (missing "lz4") (Exited "/usr/bin/zstd" 1 ZSTD_148 "") 0 "" in
  run h "zstd" ["--version"] = Exited "/usr/bin/zstd" 1 ZSTD_148 "" /\
  snd (possibleWithZstd h []) <> Ok None /\
  snd (possibleWithZstd h []) = Ok (Some ZSTD) /\
  snd (getTarCompressionMethod unset h []) = Ok ZSTD.
Proof. cbv zeta. repeat split; try reflexivity. discriminate. Qed.

End Failures.

(** ** The negotiation as a whole *)
Module NegotiationFacts.
Import Js Tar Terms Shapes ProbeFacts Samples.

Lemma strict_eq_true_iff (a : option string) (b : string) :
  strict_eq a b = true <-> a = Some b.
Proof.
  destruct a as [s|]; cbn; [|split; discriminate].
  rewrite String.eqb_eq. split; congruence.
Qed.

Lemma strict_eq_false_iff (a : option string) (b : string) :
  strict_eq a b = false <-> a <> Some b.
Proof.
  rewrite <- strict_eq_true_iff. destruct (strict_eq a b); split; congruence.
Qed.

Lemma zstd_verdict_trim (out : string) : zstd_verdict (trim out) = zstd_verdict out.
Proof.
  unfold zstd_verdict.
  rewrite JsFacts.includes_lower_trim by reflexivity.
  now rewrite RegexFacts.exec_v_version_trim.
Qed.

Lemma zstd_verdict_not_started : zstd_verdict EmptyString = Ok None.
Proof. reflexivity. Qed.

Lemma lt_threshold (v : string) :
  Semver.lt v ZSTD_WITHOUT_LONG_VERSION =
  match Semver.parse v with
  | Ok ver => Ok (Semver.precedes ver version_1_3_2)
  | Throw e => Throw e
  end.
Proof. unfold Semver.lt. destruct (Semver.parse v); reflexivity. Qed.

(** The three ways the negotiation can go. *)
Lemma getTarCompressionMethod_cases (state : State) (h : Host) (t : list Event) :
  getTarCompressionMethod state h t =
  if String.eqb (platform h) "win32" || strict_eq (compressionMethod state) (value GZIP)
  then (t, Ok GZIP)
  else if negb (unavailable LZ4_SIGNATURE (run h "lz4" ["--version"]))
          && strict_eq (compressionMethod state) (value LZ4)
  then ((t ++ [lz4_spawn])%list, Ok LZ4)
  else
    ((t ++ [lz4_spawn; zstd_spawn])%list,
     match zstd_verdict (probe_output (run h "zstd" ["--version"])) with
     | Ok (Some m) => Ok m
     | Ok None => Ok GZIP
     | Throw e => Throw e
     end).
Proof.
  destruct (String.eqb (platform h) "win32") eqn:Hos.
  - unfold getTarCompressionMethod, bind, host. now rewrite Hos.
  - destruct (strict_eq (compressionMethod state) (value GZIP)) eqn:Hg.
    + unfold getTarCompressionMethod, bind, host. now rewrite Hos, Hg.
    + cbn [orb]. now apply getTarCompressionMethod_probing.
Qed.

(** What a verdict of the zstd probe tells about the host. *)
Lemma zstd_verdict_probe_inv (p : Process) (r : result (option CompressionMethod)) :
  zstd_verdict (probe_output p) = r ->
  r <> Ok None ->
  exists toolPath code out err,
    p = Exited toolPath code out err /\
    includes ZSTD_SIGNATURE (toLowerCase out) = true /\
    r = match Regex.exec_v_version out with
        | None => Ok (Some ZSTD_WITHOUT_LONG)
        | Some v =>
            match Semver.parse v with
            | Ok ver => Ok (Some (if Semver.precedes ver version_1_3_2
                                  then ZSTD_WITHOUT_LONG else ZSTD))
            | Throw e => Throw e
            end
        end.
Proof.
  intros Hr Hne. destruct p as [msg|toolPath code out err].
  - cbn in Hr. congruence.
  - exists toolPath, code, out, err. split; [reflexivity|].
    cbn [probe_output] in Hr. rewrite zstd_verdict_trim in Hr.
    unfold zstd_verdict in Hr.
    destruct (includes ZSTD_SIGNATURE (toLowerCase out)); [|congruence].
    split; [reflexivity|]. subst r.
    destruct (Regex.exec_v_version out) as [v|]; [|reflexivity].
    rewrite lt_threshold.
    destruct (Semver.parse v) as [ver|e]; [|reflexivity].
    destruct (Semver.precedes ver version_1_3_2); reflexivity.
Qed.

(** X1: what the zstd probe answers is what the signature test, the version
    pattern and the comparison give on the raw standard output: the
    trimming changes nothing, and neither does the exit code. *)
Theorem zstd_probe_is_decided_by_raw_output
    (h : Host) (t : list Event) (toolPath : string) (code : Z) (out err : string) :
  run h "zstd" ["--version"] = Exited toolPath code out err ->
  possibleWithZstd h t = ((t ++ [zstd_spawn])%list, zstd_verdict out).
Proof.
  intros Hrun. rewrite possibleWithZstd_eq, Hrun. cbn [probe_output].
  now rewrite zstd_verdict_trim.
Qed.

Lemma zstd_probe_is_decided_by_raw_output_witness :
  possibleWithZstd
    (host_with "linux" (missing "lz4")
       (Exited "/usr/bin/zstd" 3 ("  " ++ ZSTD_131 ++ String "010" " ") "") 0 "") [] =
  ([zstd_spawn], zstd_verdict ("  " ++ ZSTD_131 ++ String "010" " ")).
Proof.
  apply (zstd_probe_is_decided_by_raw_output _ [] "/usr/bin/zstd" 3 _ "").
  reflexivity.
Defined.

(** X3: the negotiator returns zstd (with long mode) only when the zstd
    command ran, printed its signature, and the first version token of its
    output is a valid semantic version that is not below 1.3.2. *)
Theorem zstd_long_mode_only_for_recent_zstd
    (state : State) (h : Host) (t : list Event) :
  snd (getTarCompressionMethod state h t) = Ok ZSTD ->
  exists toolPath code out err v ver,
    run h "zstd" ["--version"] = Exited toolPath code out err /\
    includes ZSTD_SIGNATURE (toLowerCase out) = true /\
    Regex.exec_v_version out = Some v /\
    Semver.parse v = Ok ver /\
    Semver.precedes ver version_1_3_2 = false.
Proof.
  rewrite getTarCompressionMethod_cases.
  destruct (_ || _); [discriminate|].
  destruct (_ && _); [discriminate|]. cbn [snd].
  intros H.
  destruct (zstd_verdict_probe_inv (run h "zstd" ["--version"]) _ eq_refl)
    as (toolPath & code & out & err & Hrun & Hsig & Hv).
  { intros Hnone. rewrite Hnone in H. discriminate. }
  rewrite Hv in H.
  exists toolPath, code, out, err.
  destruct (Regex.exec_v_version out) as [v|] eqn:Htok; [|discriminate].
  destruct (Semver.parse v) as [ver|e] eqn:Hparse; [|discriminate].
  exists v, ver.
  destruct (Semver.precedes ver version_1_3_2) eqn:Hlt; [discriminate|].
  repeat split; assumption || reflexivity.
Qed.

Lemma zstd_long_mode_only_for_recent_zstd_witness :
  exists toolPath code out err v ver,
    run (host_with "linux" (missing "lz4") (prints "/usr/bin/zstd" ZSTD_148) 0 "")
      "zstd" ["--version"] = Exited toolPath code out err /\
    includes ZSTD_SIGNATURE (toLowerCase out) = true /\
    Regex.exec_v_version out = Some v /\
    Semver.parse v = Ok ver /\
    Semver.precedes ver version_1_3_2 = false.
Proof.
  apply (zstd_long_mode_only_for_recent_zstd unset _ []). reflexivity.
Defined.

(** X4: a method other than gzip is returned only when its tool answered:
    lz4 only when the preference is lz4 and the lz4 command printed its
    signature, the two zstd methods only when the zstd command printed
    its signature. *)
Theorem method_returned_only_when_its_tool_answered
    (state : State) (h : Host) (t : list Event) (m : CompressionMethod) :
  snd (getTarCompressionMethod state h t) = Ok m ->
  (m = LZ4 ->
   compressionMethod state = Some "lz4" /\
   unavailable LZ4_SIGNATURE (run h "lz4" ["--version"]) = false) /\
  (m = ZSTD \/ m = ZSTD_WITHOUT_LONG ->
   unavailable ZSTD_SIGNATURE (run h "zstd" ["--version"]) = false).
Proof.
  rewrite getTarCompressionMethod_cases.
  destruct (_ || _).
  { intros [= <-]. split; [discriminate | intros [|]; discriminate]. }
  destruct (negb (unavailable LZ4_SIGNATURE (run h "lz4" ["--version"]))
            && strict_eq (compressionMethod state) (value LZ4)) eqn:Hlz4.
  { intros [= <-]. apply andb_true_iff in Hlz4 as [Ha Hp].
    split; [|intros [|]; discriminate].
    intros _. split; [now apply strict_eq_true_iff|].
    now apply negb_true_iff in Ha. }
  cbn [snd]. intros H.
  assert (Hz : m <> GZIP ->
               unavailable ZSTD_SIGNATURE (run h "zstd" ["--version"]) = false /\ m <> LZ4).
  { intros Hm.
    destruct (unavailable ZSTD_SIGNATURE (run h "zstd" ["--version"])) eqn:Hu.
    - rewrite (Negotiation.zstd_verdict_unavailable _ Hu) in H. congruence.
    - split; [reflexivity|]. intros ->.
      pose proof (Negotiation.zstd_verdict_never_lz4
                    (probe_output (run h "zstd" ["--version"]))) as Hn.
      destruct (zstd_verdict _) as [[m'|]|e]; congruence. }
  split.
  - intros ->. destruct Hz as [_ Hz]; [discriminate|]. now contradiction Hz.
  - intros [->| ->]; now apply Hz.
Qed.

Lemma method_returned_only_when_its_tool_answered_witness :
  let h := host_with "linux" (prints "/usr/bin/lz4" LZ4_192) (missing "zstd") 0 "" in
  compressionMethod (prefers "lz4") = Some "lz4" /\
  unavailable LZ4_SIGNATURE (run h "lz4" ["--version"]) = false.
Proof.
  apply (proj1 (method_returned_only_when_its_tool_answered
                  (prefers "lz4")
                  (host_with "linux" (prints "/usr/bin/lz4" LZ4_192) (missing "zstd") 0 "")
                  [] LZ4 eq_refl)).
  reflexivity.
Defined.

(** X5: the negotiation rejects in one situation only: off Windows, with a
    preference other than gzip, lz4 not both found and preferred, and a zstd
    output that carries the signature and a version token that
    [semver] refuses; the exception is then [semver]'s. A probe command that
    cannot be started or exits non-zero never makes it reject. *)
Theorem negotiation_rejects_only_on_refused_version
    (state : State) (h : Host) (t : list Event) (e : exn) :
  snd (getTarCompressionMethod state h t) = Throw e <->
  platform h <> "win32" /\
  compressionMethod state <> Some "gzip" /\
  (unavailable LZ4_SIGNATURE (run h "lz4" ["--version"]) = true \/
   compressionMethod state <> Some "lz4") /\
  exists toolPath code out err v,
    run h "zstd" ["--version"] = Exited toolPath code out err /\
    includes ZSTD_SIGNATURE (toLowerCase out) = true /\
    Regex.exec_v_version out = Some v /\
    Semver.parse v = Throw e.
Proof.
  rewrite getTarCompressionMethod_cases. split.
  - destruct (String.eqb (platform h) "win32") eqn:Hos; [discriminate|].
    destruct (strict_eq (compressionMethod state) (value GZIP)) eqn:Hg; [discriminate|].
    cbn [orb].
    destruct (negb (unavailable LZ4_SIGNATURE (run h "lz4" ["--version"]))
              && strict_eq (compressionMethod state) (value LZ4)) eqn:Hlz4;
      [discriminate|].
    cbn [snd]. intros H.
    split; [now apply String.eqb_neq|].
    split; [now apply strict_eq_false_iff in Hg|].
    split.
    { apply andb_false_iff in Hlz4 as [Ha|Hp].
      - left. now apply negb_false_iff in Ha.
      - right. now apply strict_eq_false_iff in Hp. }
    destruct (zstd_verdict_probe_inv (run h "zstd" ["--version"]) _ eq_refl)
      as (toolPath & code & out & err & Hrun & Hsig & Hv).
    { intros Hnone. rewrite Hnone in H. discriminate. }
    rewrite Hv in H. exists toolPath, code, out, err.
    destruct (Regex.exec_v_version out) as [v|] eqn:Htok; [|discriminate].
    exists v. destruct (Semver.parse v) as [ver|e'] eqn:Hparse; [discriminate|].
    injection H as ->. repeat split; assumption || reflexivity.
  - intros (Hos & Hg & Hlz4 & toolPath & code & out & err & v & Hrun & Hsig & Hv & Hp).
    apply String.eqb_neq in Hos. apply (strict_eq_false_iff _ (value GZIP)) in Hg.
    rewrite Hos, Hg. cbn [orb].
    assert (Hoff : negb (unavailable LZ4_SIGNATURE (run h "lz4" ["--version"]))
                   && strict_eq (compressionMethod state) (value LZ4) = false).
    { apply andb_false_iff. destruct Hlz4 as [Ha|Hp'].
      - left. now rewrite Ha.
      - right. now apply strict_eq_false_iff. }
    rewrite Hoff, Hrun. cbn [snd probe_output].
    rewrite zstd_verdict_trim. unfold zstd_verdict.
    now rewrite Hsig, Hv, lt_threshold, Hp.
Qed.

Lemma negotiation_rejects_only_on_refused_version_witness :
  snd (getTarCompressionMethod (prefers "zstd")
         (host_with "linux" (prints "/usr/bin/lz4" LZ4_192)
            (prints "/usr/bin/zstd" "zstd command line interface v01.5.0") 0 "") []) =
  Throw (TypeError "Invalid Version: 01.5.0").
Proof.
  apply (proj2 (negotiation_rejects_only_on_refused_version _ _ [] _)).
  split; [discriminate|]. split; [discriminate|]. split; [right; discriminate|].
  exists "/usr/bin/zstd", 0%Z,
    ("zstd command line interface v01.5.0" ++ String "010" ""), "", "01.5.0".
  repeat split; reflexivity.
Defined.

(** X6: whatever the host and the preference, the negotiation appends to
    the events nothing, or the lz4 probe, or the lz4 probe followed by the
    zstd probe: it never runs tar, never logs, and never probes zstd before
    lz4. *)
Theorem negotiation_only_runs_the_two_probes
    (state : State) (h : Host) (t : list Event) :
  fst (getTarCompressionMethod state h t) = t \/
  fst (getTarCompressionMethod state h t) = (t ++ [lz4_spawn])%list \/
  fst (getTarCompressionMethod state h t) = (t ++ [lz4_spawn; zstd_spawn])%list.
Proof.
  rewrite getTarCompressionMethod_cases.
  destruct (_ || _); [now left|].
  destruct (_ && _); [right; now left | right; now right].
Qed.

(** X7: when the lz4 command did not start or did not print its signature,
    the preference has no say at all unless it is gzip: a preference of lz4
    then negotiates exactly as no preference does. *)
Theorem preference_is_moot_without_lz4
    (s1 s2 : State) (h : Host) (t : list Event) :
  unavailable LZ4_SIGNATURE (run h "lz4" ["--version"]) = true ->
  compressionMethod s1 <> Some "gzip" ->
  compressionMethod s2 <> Some "gzip" ->
  getTarCompressionMethod s1 h t = getTarCompressionMethod s2 h t.
Proof.
  intros Hlz4 H1 H2. rewrite !getTarCompressionMethod_cases.
  apply (strict_eq_false_iff _ (value GZIP)) in H1, H2.
  rewrite H1, H2, Hlz4. reflexivity.
Qed.

Lemma preference_is_moot_without_lz4_witness :
  let h := host_with "linux" (missing "lz4") (prints "/usr/bin/zstd" ZSTD_131) 0 "" in
  getTarCompressionMethod (prefers "lz4") h [] = getTarCompressionMethod unset h [].
Proof.
  apply preference_is_moot_without_lz4; [reflexivity | discriminate | discriminate].
Defined.

End NegotiationFacts.

(** ** Creating and extracting, as wholes *)
Module ArchiveFacts.
Import Js Tar Terms Shapes ProbeFacts Samples Archives.

Lemma exec_outcome_ok (p : Process) (code : Z) :
  exec_outcome p = Ok code ->
  exists toolPath out err, p = Exited toolPath 0 out err.
Proof.
  destruct p as [msg|toolPath c out err]; cbn [exec_outcome]; [discriminate|].
  destruct (c =? 0)%Z eqn:Hc; [|discriminate].
  apply Z.eqb_eq in Hc. subst c. intros _. now exists toolPath, out, err.
Qed.

Lemma createTar_rejected_negotiation (state : State) (archivePath : string)
    (paths : list string) (cwd : string) (h : Host) (t t' : list Event) (e : exn) :
  getTarCompressionMethod state h t = (t', Throw e) ->
  createTar state archivePath paths cwd h t = (t', Throw e).
Proof. intros H. unfold createTar, bind at 1. now rewrite H. Qed.

Lemma buildDecompressionArgs_some (tag : string) (flags : list string) :
  buildDecompressionArgs tag = Some flags -> exists m, tag = value m.
Proof.
  unfold buildDecompressionArgs.
  destruct (String.eqb tag (value GZIP)) eqn:H1;
    [apply String.eqb_eq in H1; now exists GZIP|].
  destruct (String.eqb tag (value ZSTD_WITHOUT_LONG)) eqn:H2;
    [apply String.eqb_eq in H2; now exists ZSTD_WITHOUT_LONG|].
  destruct (String.eqb tag (value ZSTD)) eqn:H3;
    [apply String.eqb_eq in H3; now exists ZSTD|].
  destruct (String.eqb tag (value LZ4)) eqn:H4;
    [apply String.eqb_eq in H4; now exists LZ4|].
  discriminate.
Qed.

(** [extractTar] on any tag. *)
Lemma extractTar_any (archivePath tag cwd : string) (h : Host) (t : list Event) :
  extractTar archivePath tag cwd h t =
  match buildDecompressionArgs tag with
  | None =>
      ((t ++ [Log (detected_message tag)])%list,
       Throw (TypeError "compressionArgs is not iterable"))
  | Some flags =>
      let argv := ("-x" :: flags ++ ["-P"; "-f"; archivePath; "-C"; cwd])%list in
      ((t ++ [Log (detected_message tag); Spawn "tar" argv Exec.default_options])%list,
       match exec_outcome (run h "tar" argv) with
       | Ok _ => Ok tt
       | Throw e => Throw e
       end)
  end.
Proof.
  unfold extractTar.
  destruct (buildDecompressionArgs tag) as [flags|]; [|reflexivity].
  unfold bind at 1, emit. unfold bind at 1, spread, ret at 1.
  unfold bind. rewrite exec_eq, <- app_assoc. cbv zeta.
  destruct (exec_outcome _); reflexivity.
Qed.

(** X8: [createTar] resolves with a method exactly when the negotiation
    resolved with that method and tar, run with that method's flags, exited
    with code 0; so the method it hands back for the metadata is always the
    one the archive was written with. *)
Theorem createTar_resolves_iff
    (state : State) (archivePath : string) (paths : list string) (cwd : string)
    (h : Host) (t : list Event) (m : CompressionMethod) :
  snd (createTar state archivePath paths cwd h t) = Ok m <->
  snd (getTarCompressionMethod state h t) = Ok m /\
  exists flags toolPath out err,
    buildCompressionArgs (value m) = Some flags /\
    run h "tar"
      ("-c" :: flags ++ ["--posix"; "-P"; "-f"; archivePath; "-C"; cwd] ++ paths)%list =
    Exited toolPath 0 out err.
Proof.
  destruct (getTarCompressionMethod state h t) as [t' [m'|e]] eqn:Hn.
  - rewrite (createTar_eq _ archivePath paths cwd _ _ _ _ Hn). cbn [snd]. split.
    + intros H.
      destruct (exec_outcome _) as [code|e] eqn:Ho; [|discriminate].
      injection H as ->. split; [reflexivity|].
      destruct (exec_outcome_ok _ _ Ho) as (toolPath & out & err & Hrun).
      exists (creation_flags m), toolPath, out, err.
      split; [apply buildCompressionArgs_value | exact Hrun].
    + intros [[= ->] (flags & toolPath & out & err & Hf & Hrun)].
      rewrite buildCompressionArgs_value in Hf. injection Hf as <-.
      now rewrite Hrun.
  - rewrite (createTar_rejected_negotiation _ archivePath paths cwd _ _ _ _ Hn).
    cbn [snd]. split; [discriminate | intros [H _]; discriminate].
Qed.

Lemma createTar_resolves_iff_witness :
  snd (createTar unset "/tmp/cache.tar" ["dist"] "/work"
         (host_with "linux" (missing "lz4") (prints "/usr/bin/zstd" ZSTD_131) 0 "") []) =
  Ok ZSTD_WITHOUT_LONG.
Proof.
  apply (proj2 (createTar_resolves_iff unset "/tmp/cache.tar" ["dist"] "/work"
                  (host_with "linux" (missing "lz4") (prints "/usr/bin/zstd" ZSTD_131) 0 "")
                  [] ZSTD_WITHOUT_LONG)).
  split; [reflexivity|].
  exists ["--use-compress-program"; "zstd -T0"], "/usr/bin/tar", "", "".
  split; reflexivity.
Defined.

(** X9: [extractTar] resolves exactly when the tag is one of the four
    method values and tar, run with that method's decompression flags,
    exited with code 0. *)
Theorem extractTar_resolves_iff
    (archivePath tag cwd : string) (h : Host) (t : list Event) :
  snd (extractTar archivePath tag cwd h t) = Ok tt <->
  exists m flags toolPath out err,
    tag = value m /\
    buildDecompressionArgs tag = Some flags /\
    run h "tar" ("-x" :: flags ++ ["-P"; "-f"; archivePath; "-C"; cwd])%list =
    Exited toolPath 0 out err.
Proof.
  rewrite extractTar_any. split.
  - destruct (buildDecompressionArgs tag) as [flags|] eqn:Hf; [|discriminate].
    cbv zeta. cbn [snd]. intros H.
    destruct (exec_outcome _) as [code|e] eqn:Ho; [|discriminate].
    destruct (exec_outcome_ok _ _ Ho) as (toolPath & out & err & Hrun).
    destruct (buildDecompressionArgs_some tag flags Hf) as [m Hm].
    now exists m, flags, toolPath, out, err.
  - intros (m & flags & toolPath & out & err & _ & Hf & Hrun).
    rewrite Hf. cbv zeta. cbn [snd]. now rewrite Hrun.
Qed.

Lemma extractTar_resolves_iff_witness :
  snd (extractTar "/tmp/cache.tar" "zstd (without long)" "/work"
         (host_with "linux" (missing "lz4") (missing "zstd") 0 "") []) = Ok tt.
Proof.
  apply (proj2 (extractTar_resolves_iff "/tmp/cache.tar" "zstd (without long)" "/work"
                  (host_with "linux" (missing "lz4") (missing "zstd") 0 "") [])).
  exists ZSTD_WITHOUT_LONG, ["--use-compress-program"; "zstd -d"], "/usr/bin/tar", "", "".
  repeat split; reflexivity.
Defined.

(** X10: for every method the flags for creating and the flags for
    extracting agree: both are [-z] alone, or both name a program through
    [--use-compress-program], the same tool in each; the extracting one is
    given [-d], and [--long=30] is given to both or to neither. *)
Theorem compression_and_decompression_agree (m : CompressionMethod) :
  exists c d,
    buildCompressionArgs (value m) = Some c /\
    buildDecompressionArgs (value m) = Some d /\
    option_map first_word (compress_program c) =
      option_map first_word (compress_program d) /\
    (compress_program c = None -> c = ["-z"] /\ d = ["-z"]) /\
    (forall p q,
        compress_program c = Some p -> compress_program d = Some q ->
        existsb (String.eqb "-d") (words q) = true /\
        existsb (String.eqb "-d") (words p) = false /\
        existsb (String.eqb "--long=30") (words p) =
          existsb (String.eqb "--long=30") (words q)).
Proof.
  exists (creation_flags m), (extraction_flags m).
  split; [apply buildCompressionArgs_value|].
  split; [apply buildDecompressionArgs_value|].
  destruct m; (split; [reflexivity|]); split;
    try (intros _; split; reflexivity); try discriminate;
    intros p q [= <-] [= <-]; repeat split; reflexivity.
Qed.

Lemma compression_and_decompression_agree_witness :
  exists c d,
    buildCompressionArgs "zstd" = Some c /\
    buildDecompressionArgs "zstd" = Some d /\
    option_map first_word (compress_program c) =
      option_map first_word (compress_program d) /\
    (compress_program c = None -> c = ["-z"] /\ d = ["-z"]) /\
    (forall p q,
        compress_program c = Some p -> compress_program d = Some q ->
        existsb (String.eqb "-d") (words q) = true /\
        existsb (String.eqb "-d") (words p) = false /\
        existsb (String.eqb "--long=30") (words p) =
          existsb (String.eqb "--long=30") (words q)).
Proof. exact (compression_and_decompression_agree ZSTD). Defined.

End ArchiveFacts.

(** ** The action's inputs *)
Module InputsFacts.
Import Js Shapes Core Text Inputs.

Lemma getInput_optional (env : Env) (name : string) :
  getInput env name false = Ok (trim (raw_input env name)).
Proof. reflexivity. Qed.

Lemma getInput_required (env : Env) (name : string) :
  getInput env name true =
  if is_empty (raw_input env name)
  then Throw (Error ("Input required and not supplied: " ++ name))
  else Ok (trim (raw_input env name)).
Proof. reflexivity. Qed.

Lemma getInputs_eq (env : Env) :
  getInputs env =
  match first_missing env with
  | Some name => ([], Throw (Error ("Input required and not supplied: " ++ name)))
  | None => (["Loaded inputs: " ++ stringify (loaded env) ++ "."], Ok (loaded env))
  end.
Proof.
  unfold getInputs, first_missing.
  rewrite !getInput_required, !getInput_optional.
  destruct (is_empty (raw_input env "bucket")); [reflexivity|].
  destruct (is_empty (raw_input env "path")); [reflexivity|].
  destruct (is_empty (raw_input env "key")); reflexivity.
Qed.

Lemma getInputs_ok (env : Env) (i : Inputs) :
  snd (getInputs env) = Ok i -> i = loaded env.
Proof.
  rewrite getInputs_eq. destruct (first_missing env); cbn [snd]; congruence.
Qed.

Lemma trimStart_idempotent (s : string) : trimStart (trimStart s) = trimStart s.
Proof.
  induction s as [|c r IH]; [reflexivity|].
  cbn [trimStart]. destruct (is_space c) eqn:Hc; [exact IH|].
  cbn [trimStart]. now rewrite Hc.
Qed.

Lemma trimEnd_idempotent (s : string) : trimEnd (trimEnd s) = trimEnd s.
Proof.
  induction s as [|c r IH]; [reflexivity|].
  cbn [trimEnd].
  destruct (is_space c && is_empty (trimEnd r)) eqn:Hcut; [reflexivity|].
  cbn [trimEnd]. now rewrite IH, Hcut.
Qed.

Lemma trimEnd_trimStart_fixed (x : string) :
  trimEnd x = x -> trimEnd (trimStart x) = trimStart x.
Proof.
  induction x as [|c r IH]; [reflexivity|].
  intros Hx. cbn [trimStart]. destruct (is_space c); [|exact Hx].
  apply IH. cbn [trimEnd] in Hx.
  destruct (is_space c && is_empty (trimEnd r)); [discriminate|].
  now injection Hx.
Qed.

Lemma trim_idempotent (s : string) : trim (trim s) = trim s.
Proof.
  unfold trim.
  rewrite (trimEnd_trimStart_fixed (trimEnd s) (trimEnd_idempotent s)).
  apply trimStart_idempotent.
Qed.

Lemma split_no_comma (s : string) : forallb no_comma (split "," s) = true.
Proof.
  induction s as [|c r IH]; [reflexivity|].
  cbn [split]. destruct (Ascii.eqb c ",") eqn:Hc; [exact IH|].
  destruct (split "," r) as [|p ps]; cbn [forallb no_comma] in *.
  - now rewrite Hc.
  - now rewrite Hc.
Qed.

Lemma filter_plain (l : list string) :
  forallb no_comma l = true ->
  forallb plain_key (filter (fun p => negb (is_empty p)) l) = true.
Proof.
  induction l as [|x l IH]; [reflexivity|].
  cbn [forallb filter]. intros H. apply andb_true_iff in H as [Hx Hl].
  destruct (negb (is_empty x)) eqn:Hne; [|now apply IH].
  cbn [forallb]. unfold plain_key at 1. now rewrite Hne, Hx, IH.
Qed.

Lemma parseRestoreKeys_plain (text : string) :
  forallb plain_key (parseRestoreKeys text) = true.
Proof. apply filter_plain, split_no_comma. Qed.

Lemma split_single (k : string) : no_comma k = true -> split "," k = [k].
Proof.
  induction k as [|c k IH]; [reflexivity|].
  cbn [no_comma split]. intros H. apply andb_true_iff in H as [Hc Hk].
  apply negb_true_iff in Hc. now rewrite Hc, (IH Hk).
Qed.

Lemma split_first (k rest : string) :
  no_comma k = true -> split "," (k ++ "," ++ rest) = k :: split "," rest.
Proof.
  induction k as [|c k IH]; [reflexivity|].
  cbn [no_comma]. intros H. apply andb_true_iff in H as [Hc Hk].
  apply negb_true_iff in Hc.
  change (String c k ++ "," ++ rest) with (String c (k ++ "," ++ rest)).
  cbn [split]. now rewrite Hc, (IH Hk).
Qed.

Lemma parseRestoreKeys_join (keys : list string) :
  forallb plain_key keys = true ->
  parseRestoreKeys (join "," keys) = keys.
Proof.
  unfold parseRestoreKeys.
  induction keys as [|k rest IH]; [reflexivity|].
  cbn [forallb]. intros H. apply andb_true_iff in H as [Hk Hrest].
  unfold plain_key in Hk. apply andb_true_iff in Hk as [Hne Hnc].
  destruct rest as [|k' rest'].
  - cbn [join]. rewrite (split_single k Hnc). cbn [filter]. now rewrite Hne.
  - change (join "," (k :: k' :: rest')) with (k ++ "," ++ join "," (k' :: rest')).
    rewrite (split_first k _ Hnc). cbn [filter]. rewrite Hne.
    f_equal. now apply IH.
Qed.

(** X11: [getInputs] fails exactly when one of [bucket], [path], [key] is
    not set or is empty, with the error that names the first of them in that
    order, and then logs nothing; otherwise it resolves and hands one
    message to [core.debug]. The other three inputs are never required. *)
Theorem getInputs_fails_on_first_missing_required_input (env : Env) :
  (forall name,
      first_missing env = Some name ->
      getInputs env = ([], Throw (Error ("Input required and not supplied: " ++ name)))) /\
  (first_missing env = None ->
   exists i, getInputs env = (["Loaded inputs: " ++ stringify i ++ "."], Ok i)).
Proof.
  rewrite getInputs_eq. split.
  - intros name ->. reflexivity.
  - intros ->. now exists (loaded env).
Qed.

Lemma getInputs_fails_on_first_missing_required_input_witness :
  getInputs (SampleInputs.lookup [("INPUT_BUCKET", "b"); ("INPUT_KEY", "k")]) =
  ([], Throw (Error "Input required and not supplied: path")).
Proof.
  apply (proj1 (getInputs_fails_on_first_missing_required_input
                  (SampleInputs.lookup [("INPUT_BUCKET", "b"); ("INPUT_KEY", "k")]))
           "path").
  reflexivity.
Defined.

(** X12: every restore key [getInputs] returns is non-empty and holds no
    comma, whatever the text of the input. *)
Theorem restoreKeys_are_nonempty_and_comma_free (env : Env) (i : Inputs) :
  snd (getInputs env) = Ok i ->
  forallb plain_key (restoreKeys i) = true.
Proof.
  intros H. rewrite (getInputs_ok env i H). cbn [restoreKeys loaded].
  apply parseRestoreKeys_plain.
Qed.

Lemma restoreKeys_are_nonempty_and_comma_free_witness :
  forallb plain_key ["npm-"; " "; "node-"] = true.
Proof.
  apply (restoreKeys_are_nonempty_and_comma_free SampleInputs.workflow
           (loaded SampleInputs.workflow)).
  reflexivity.
Defined.

(** X13: when the inputs are ASCII text, a list of non-empty, comma-free
    keys written as one input, joined by commas, comes back as the same
    list, provided the joined text has no white space at either end (the
    input is trimmed as a whole, its keys are not); and parsing the joined
    result of a parse changes nothing. *)
Theorem restoreKeys_round_trip (env : Env) (keys : list string) (i : Inputs) :
  ascii_inputs env = true ->
  forallb plain_key keys = true ->
  trimmed (join "," keys) ->
  env (variable_of "restore-keys") = Some (join "," keys) ->
  snd (getInputs env) = Ok i ->
  restoreKeys i = keys /\
  parseRestoreKeys (join "," (restoreKeys i)) = restoreKeys i.
Proof.
  intros _ Hplain Htrim Henv H.
  rewrite (getInputs_ok env i H). cbn [restoreKeys loaded].
  unfold raw_input. rewrite Henv, Htrim.
  rewrite (parseRestoreKeys_join keys Hplain).
  split; [reflexivity | now apply parseRestoreKeys_join].
Qed.

Lemma restoreKeys_round_trip_witness :
  let env := SampleInputs.lookup
               [("INPUT_BUCKET", "b"); ("INPUT_PATH", "p"); ("INPUT_KEY", "k");
                ("INPUT_RESTORE-KEYS", "npm-linux-,npm-")] in
  restoreKeys (loaded env) = ["npm-linux-"; "npm-"] /\
  parseRestoreKeys (join "," (restoreKeys (loaded env))) = restoreKeys (loaded env).
Proof.
  apply (restoreKeys_round_trip
           (SampleInputs.lookup
              [("INPUT_BUCKET", "b"); ("INPUT_PATH", "p"); ("INPUT_KEY", "k");
               ("INPUT_RESTORE-KEYS", "npm-linux-,npm-")])
           ["npm-linux-"; "npm-"]);
    reflexivity.
Defined.

(** X14: when the inputs are ASCII text, each of the five text inputs
    [getInputs] returns is the trimmed value of its variable, so it has no
    white space at either end; a required input made of white space only is
    therefore accepted and comes back empty. *)
Theorem text_inputs_are_trimmed (env : Env) (i : Inputs) :
  ascii_inputs env = true ->
  snd (getInputs env) = Ok i ->
  (bucket i = trim (raw_input env "bucket") /\
   path i = trim (raw_input env "path") /\
   key i = trim (raw_input env "key") /\
   keyFileName i = trim (raw_input env "key-file-name") /\
   compressionMethod i = trim (raw_input env "compression-method")) /\
  (trimmed (bucket i) /\ trimmed (path i) /\ trimmed (key i) /\
   trimmed (keyFileName i) /\ trimmed (compressionMethod i)).
Proof.
  intros _ H. rewrite (getInputs_ok env i H).
  cbn [bucket path key keyFileName compressionMethod loaded].
  split; [repeat split|]. unfold trimmed. repeat split; apply trim_idempotent.
Qed.

Lemma text_inputs_are_trimmed_witness :
  let env := SampleInputs.lookup
               [("INPUT_BUCKET", "   "); ("INPUT_PATH", " p "); ("INPUT_KEY", "k")] in
  snd (getInputs env) = Ok (loaded env) /\
  bucket (loaded env) = "" /\ trimmed (path (loaded env)).
Proof.
  cbv zeta. split; [reflexivity|].
  pose proof (text_inputs_are_trimmed
                (SampleInputs.lookup
                   [("INPUT_BUCKET", "   "); ("INPUT_PATH", " p "); ("INPUT_KEY", "k")])
                _ eq_refl eq_refl) as [[Hb _] [_ [Hp _]]].
  split; [exact Hb | exact Hp].
Defined.

End InputsFacts.
